(** * InsideSales admin dashboard: status aggregation and widget selection

    A shallow embedding of the logic of four view components:

    - [SystemStatusSettings.fetchSystemStats]  (table counts, keep-alive badge)
    - [CronJobMonitoring.fetchKeepAliveStatus] (keep-alive badge)
    - [EdgeFunctionMonitor.fetchFunctionStatuses] with its local [getStatus]
    - [DashboardCustomizeModal] ([toggleWidget], [handleSave], [handleReset])

    JavaScript values are modelled as far as the components use them: numbers
    are [NaN] or an exact rational, a [Date] is its time value, a row returned
    by the backend is a finite map from column names to values, and an awaited
    query either rejects or resolves to a response object. *)

From Stdlib Require Import ZArith QArith Qround Lia Bool Ascii String.
From Stdlib Require Import Sorting.Sorted Sorting.Permutation.
From stdpp Require Import gmap strings list.

Local Open Scope string_scope.
Local Open Scope Z_scope.

(** ** JavaScript numbers, values and dates *)

Module JS.

(** A JavaScript number.  Every number that the components compute is an
    integer of magnitude below 2^53 (a time value, a difference of two time
    values, a row count) or the quotient of such an integer by 3600000, which
    is only ever compared with an integer constant; the rounding of the
    double quotient never crosses such a constant, so an exact rational
    stands for the double.  Infinities do not arise: the only divisor is a
    non-zero constant. *)
Inductive number : Type :=
| NaN
| Num (q : Q).

Definition ofZ (z : Z) : number := Num (inject_Z z).

(** [a < b]: false as soon as one operand is [NaN]. *)
Definition ltb (a b : number) : bool :=
  match a, b with
  | Num x, Num y => negb (Qle_bool y x)
  | _, _ => false
  end.

(** [a > b] is [b < a]. *)
Definition gtb (a b : number) : bool := ltb b a.

Definition sub (a b : number) : number :=
  match a, b with
  | Num x, Num y => Num (x - y)
  | _, _ => NaN
  end.

(** [a / d] for a positive constant divisor [d]. *)
Definition divc (a : number) (d : positive) : number :=
  match a with
  | Num x => Num (x / inject_Z (Z.pos d))
  | NaN => NaN
  end.

(** Rounding towards zero on the rationals. *)
Definition Qtrunc (q : Q) : Z :=
  if Qle_bool 0 q then Qfloor q else Qceiling q.

(** [Math.trunc]. *)
Definition Math_trunc (a : number) : number :=
  match a with
  | Num x => ofZ (Qtrunc x)
  | NaN => NaN
  end.

(** A column value of a row: SQL NULL or a string (timestamps, ids and text
    all arrive as strings).  A column that is absent from the row object
    reads as [undefined], which is [None] in the row's lookup. *)
Inductive value : Type :=
| VNull
| VStr (s : string).

(** Truthiness of [row[field]]: [undefined], [null] and the empty string
    are falsy. *)
Definition truthy (v : option value) : bool :=
  match v with
  | Some (VStr s) => negb (String.eqb s "")
  | _ => false
  end.

(** A [Date] object is its time value: milliseconds since the epoch, or
    [NaN] for an invalid date. *)
Inductive Date : Type :=
| InvalidDate
| DateAt (ms : Z).

Definition getTime (d : Date) : number :=
  match d with
  | InvalidDate => NaN
  | DateAt ms => ofZ ms
  end.

(** The outcome of awaiting a promise. *)
Inductive awaited (A : Type) : Type :=
| Rejected (message : string)
| Resolved (a : A).
Arguments Rejected {A} message.
Arguments Resolved {A} a.

(** [Array.prototype.sort(compareFn)]: the sort is stable and, for a
    consistent comparator, its result is determined; a stable insertion sort
    computes it.  [x] goes in front of the first element it does not have to
    follow. *)
Fixpoint insertBy {A : Type} (compareFn : A -> A -> Z) (x : A) (l : list A)
  : list A :=
  match l with
  | [] => [x]
  | y :: l' =>
      if Z.leb (compareFn x y) 0 then x :: y :: l'
      else y :: insertBy compareFn x l'
  end.

Definition sort {A : Type} (compareFn : A -> A -> Z) (l : list A) : list A :=
  foldr (insertBy compareFn) [] l.

(** The host's [new Date(string)].  Which strings parse is up to the
    engine; the empty string never does. *)
Class Engine : Type := {
  newDate : string -> Date;
  newDate_empty : newDate "" = InvalidDate;
}.

End JS.

Export JS.

(** A row of a backend table. *)
Abbreviation row := (gmap string value).

(** ** date-fns *)

Module DateFns.

Definition MILLISECONDS_IN_HOUR : positive := 3600000%positive.

(** [differenceInMilliseconds(dateLeft, dateRight)]. *)
Definition differenceInMilliseconds (dateLeft dateRight : Date) : number :=
  JS.sub (getTime dateLeft) (getTime dateRight).

(** [differenceInHours(dateLeft, dateRight)]: the number of full hours
    between the dates, rounded towards zero; [NaN] when a date is invalid. *)
Definition differenceInHours (dateLeft dateRight : Date) : number :=
  Math_trunc (JS.divc (differenceInMilliseconds dateLeft dateRight)
                      MILLISECONDS_IN_HOUR).

End DateFns.

Export DateFns.

(** ** JavaScript strings

    A string is the sequence of the bytes of its UTF-8 form.  The operations
    below look only at ASCII characters ([\w] without the [u] flag, ASCII
    search strings), so they act on the bytes as they act on the UTF-16 code
    units. *)

Module JSString.

(** [c] matches [\w]: a digit, a letter or the underscore. *)
Definition isWord (c : ascii) : bool :=
  let n := nat_of_ascii c in
  ((48 <=? n) && (n <=? 57) || (65 <=? n) && (n <=? 90)
   || (97 <=? n) && (n <=? 122) || (n =? 95))%nat.

(** [c.toUpperCase()] on one ASCII character. *)
Definition toUpperCase (c : ascii) : ascii :=
  let n := nat_of_ascii c in
  if ((97 <=? n) && (n <=? 122))%nat then ascii_of_nat (n - 32) else c.

(** [s.replace(/_/g, ' ')] *)
Fixpoint replaceUnderscores (s : string) : string :=
  match s with
  | EmptyString => EmptyString
  | String c s' =>
      String (if Ascii.eqb c "_" then " "%char else c) (replaceUnderscores s')
  end.

(** [s.replace(/\b\w/g, c => c.toUpperCase())], read from a position whose
    preceding character is a word character or not ([prevWord]): a word
    character that follows none is at a word boundary. *)
Fixpoint capitalizeFrom (prevWord : bool) (s : string) : string :=
  match s with
  | EmptyString => EmptyString
  | String c s' =>
      String (if isWord c && negb prevWord then toUpperCase c else c)
             (capitalizeFrom (isWord c) s')
  end.

Definition capitalizeWords (s : string) : string := capitalizeFrom false s.

(** [s.includes(searchString)] *)
Fixpoint includes (s searchString : string) : bool :=
  String.prefix searchString s
  || match s with
     | EmptyString => false
     | String _ s' => includes s' searchString
     end.

End JSString.

(** ** Status labels *)

Module Status.

Inductive t : Type := active | warning | error | unknown | deprecated.

End Status.

#[global] Instance Status_eq_dec : EqDecision Status.t.
Proof. solve_decision. Defined.

(** ** The backend boundary *)

Module Postgrest.

Record PostgrestError : Type := {
  code : string;
  message : string;
}.

(** The object a query resolves to.  [D] is a row for [.single()] queries
    and a list of rows otherwise. *)
Record response (D : Type) : Type := {
  data : option D;
  count : option Z;
  error : option PostgrestError;
}.
Arguments data {D} r.
Arguments count {D} r.
Arguments error {D} r.

(** [error && error.code !== 'PGRST116'] *)
Definition otherThanNoRows (e : option PostgrestError) : bool :=
  match e with
  | Some e => negb (String.eqb (code e) "PGRST116")
  | None => false
  end.

(** A query as the component sees it once awaited. *)
Definition query (D : Type) : Type := awaited (response D).

End Postgrest.

(** [x || 0] on a nullable count. *)
Definition orZero (c : option Z) : Z :=
  match c with
  | Some c => if Z.eqb c 0 then 0 else c
  | None => 0
  end.

(** The string held by a truthy column value. *)
Definition strOf (v : option value) : string :=
  match v with
  | Some (VStr s) => s
  | _ => ""
  end.

(** ** SystemStatusSettings *)

Module SystemStatusSettings.

Inductive Icon : Type :=
| FileText | Users | Building2 | Table2 | Calendar
| CheckCircle | Mail | UserCheck | Bell.

Module TableStats.
Record t : Type := {
  table_name : string;
  row_count : Z;
  icon : Icon;
}.
End TableStats.

Module TableConfig.
Record t : Type := {
  name : string;
  icon : Icon;
  label : string;
}.
End TableConfig.

Record SystemStats : Type := {
  tables : list TableStats.t;
  totalRecords : Z;
  registeredUsers : Z;
  lastBackup : option string;
  lastBackupError : bool;
  storageUsed : number;
  keepAliveStatus : Status.t;
  lastKeepAlive : option string;
  queryErrors : list string;
}.

Definition TABLE_CONFIG : list TableConfig.t := [
  {| TableConfig.name := "leads"; TableConfig.icon := FileText; TableConfig.label := "Leads" |};
  {| TableConfig.name := "contacts"; TableConfig.icon := Users; TableConfig.label := "Contacts" |};
  {| TableConfig.name := "accounts"; TableConfig.icon := Building2; TableConfig.label := "Accounts" |};
  {| TableConfig.name := "deals"; TableConfig.icon := Table2; TableConfig.label := "Deals" |};
  {| TableConfig.name := "meetings"; TableConfig.icon := Calendar; TableConfig.label := "Meetings" |};
  {| TableConfig.name := "tasks"; TableConfig.icon := CheckCircle; TableConfig.label := "Tasks" |};
  {| TableConfig.name := "email_history"; TableConfig.icon := Mail; TableConfig.label := "Email History" |};
  {| TableConfig.name := "profiles"; TableConfig.icon := UserCheck; TableConfig.label := "Profiles" |};
  {| TableConfig.name := "notifications"; TableConfig.icon := Bell; TableConfig.label := "Notifications" |}
].

(** What the backend and the clock answer during one run of
    [fetchSystemStats]. *)
Record World : Type := {
  countQuery : string -> Postgrest.query (list row);
  backupQuery : Postgrest.query row;
  keepAliveQuery : Postgrest.query row;
  userCountQuery : Postgrest.query (list row);
  now : Z;
  refreshedAt : Z;
}.

(** The component's view state. *)
Record State : Type := {
  stats : option SystemStats;
  loading : bool;
  error : option string;
  lastRefresh : Z;
  autoRefresh : bool;
}.

Section Fetch.
Context `{host : Engine}.
Variable w : World.

Definition zeroRow (config : TableConfig.t) : TableStats.t :=
  {| TableStats.table_name := TableConfig.name config;
     TableStats.row_count := 0;
     TableStats.icon := TableConfig.icon config |}.

(** One element of [countPromises]: the entry for the table, and what its
    callback pushes on [queryErrors]. *)
Definition countPromise (config : TableConfig.t) : TableStats.t * list string :=
  match countQuery w (TableConfig.name config) with
  | Resolved r =>
      match Postgrest.error r with
      | Some e =>
          (zeroRow config,
           [TableConfig.name config ++ ": " ++ Postgrest.message e])
      | None =>
          ({| TableStats.table_name := TableConfig.name config;
              TableStats.row_count := orZero (Postgrest.count r);
              TableStats.icon := TableConfig.icon config |}, [])
      end
  | Rejected msg =>
      (zeroRow config, [TableConfig.name config ++ ": " ++ msg])
  end.

(** [await Promise.all(countPromises)]. *)
Definition results : list TableStats.t :=
  map (fun config => fst (countPromise config)) TABLE_CONFIG.

(** The messages pushed by the callbacks, listed in configuration order
    (the callbacks push as their queries complete). *)
Definition pushedErrors : list string :=
  concat (map (fun config => snd (countPromise config)) TABLE_CONFIG).

(** [results.forEach(result => { ...; totalRecords += result.row_count })] *)
Definition sumRecords (rs : list TableStats.t) : Z :=
  fold_left (fun total result => total + TableStats.row_count result) rs 0.

(** [tableStats.sort((a, b) => b.row_count - a.row_count)] *)
Definition sortByCount (tableStats : list TableStats.t) : list TableStats.t :=
  JS.sort (fun a b => TableStats.row_count b - TableStats.row_count a)
          tableStats.

(** The last-backup block: [(lastBackup, lastBackupError)]. *)
Definition fetchLastBackup : option string * bool :=
  match backupQuery w with
  | Resolved r =>
      if Postgrest.otherThanNoRows (Postgrest.error r) then (None, true)
      else
        match Postgrest.data r with
        | Some lastBackupData =>
            if truthy (lastBackupData !! "created_at")
            then (Some (strOf (lastBackupData !! "created_at")), false)
            else (None, false)
        | None => (None, false)
        end
  | Rejected _ => (None, true)
  end.

(** The threshold ladder applied to a truthy keep-alive timestamp. *)
Definition classify (lastKeepAlive : string) : Status.t :=
  let hoursAgo := differenceInHours (DateAt (now w)) (newDate lastKeepAlive) in
  if JS.ltb hoursAgo (ofZ 25) then Status.active
  else if JS.ltb hoursAgo (ofZ 48) then Status.warning
  else Status.error.

(** The keep-alive block on the awaited row:
    [(keepAliveStatus, lastKeepAlive)]. *)
Definition keepAliveOf (keepAliveData : option row) : Status.t * option string :=
  match keepAliveData with
  | Some d =>
      if truthy (d !! "Able to read DB")
      then
        let lastKeepAlive := strOf (d !! "Able to read DB") in
        (classify lastKeepAlive, Some lastKeepAlive)
      else (Status.unknown, None)
  | None => (Status.unknown, None)
  end.

Definition fetchKeepAlive : Status.t * option string :=
  match keepAliveQuery w with
  | Resolved r => keepAliveOf (Postgrest.data r)
  | Rejected _ => (Status.unknown, None)
  end.

(** The body of the outer [try]: the statistics handed to [setStats], or
    the message of the exception that leaves the body.  Only the final user
    count is awaited outside a [try] of its own.  The factor [0.001] of the
    storage estimate is taken as the rational 1/1000. *)
Definition collect : SystemStats + string :=
  let tableStats := results in
  let totalRecords := sumRecords results in
  let '(lastBackup, lastBackupError) := fetchLastBackup in
  let '(keepAliveStatus, lastKeepAlive) := fetchKeepAlive in
  let estimatedStorageMB :=
    Num (inject_Z totalRecords * (1 # 1000))%Q in
  match userCountQuery w with
  | Resolved r =>
      inl {| tables := sortByCount tableStats;
             totalRecords := totalRecords;
             registeredUsers := orZero (Postgrest.count r);
             lastBackup := lastBackup;
             lastBackupError := lastBackupError;
             storageUsed := estimatedStorageMB;
             keepAliveStatus := keepAliveStatus;
             lastKeepAlive := lastKeepAlive;
             queryErrors := pushedErrors |}
  | Rejected msg => inr msg
  end.

Definition fetchSystemStats (st : State) : State :=
  match collect with
  | inl s =>
      {| stats := Some s;
         loading := false;
         error := None;
         lastRefresh := refreshedAt w;
         autoRefresh := autoRefresh st |}
  | inr msg =>
      {| stats := stats st;
         loading := false;
         error := Some (if String.eqb msg "" then "Failed to fetch system statistics" else msg);
         lastRefresh := lastRefresh st;
         autoRefresh := autoRefresh st |}
  end.

End Fetch.

Definition initialState (mountedAt : Z) : State :=
  {| stats := None; loading := true; error := None;
     lastRefresh := mountedAt; autoRefresh := false |}.

(** *** What the view derives from the state *)

Module Health.

Inductive Icon : Type := AlertCircle | AlertTriangle | XCircle | CheckCircle.

Record t : Type := {
  status : string;
  color : string;
  icon : Icon;
}.

End Health.

Definition getHealthStatus (stats : option SystemStats) : Health.t :=
  match stats with
  | None =>
      {| Health.status := "unknown"; Health.color := "text-muted-foreground";
         Health.icon := Health.AlertCircle |}
  | Some stats =>
      if (0 <? length (queryErrors stats))%nat then
        {| Health.status := "Degraded"; Health.color := "text-yellow-500";
           Health.icon := Health.AlertTriangle |}
      else if bool_decide (keepAliveStatus stats = Status.error) then
        {| Health.status := "Error"; Health.color := "text-destructive";
           Health.icon := Health.XCircle |}
      else if bool_decide (keepAliveStatus stats = Status.warning) then
        {| Health.status := "Warning"; Health.color := "text-yellow-500";
           Health.icon := Health.AlertTriangle |}
      else if (0 <? totalRecords stats)
              && bool_decide (keepAliveStatus stats = Status.active) then
        {| Health.status := "Healthy"; Health.color := "text-green-500";
           Health.icon := Health.CheckCircle |}
      else if 0 <? totalRecords stats then
        {| Health.status := "Healthy"; Health.color := "text-green-500";
           Health.icon := Health.CheckCircle |}
      else
        {| Health.status := "No Data"; Health.color := "text-yellow-500";
           Health.icon := Health.AlertCircle |}
  end.

Inductive BadgeVariant : Type := default | secondary | outline.

Definition getRecordBadgeVariant (count : Z) : BadgeVariant :=
  if 100 <? count then default
  else if 0 <? count then secondary
  else outline.

Definition formatTableName (name : string) : string :=
  JSString.capitalizeWords (JSString.replaceUnderscores name).



End SystemStatusSettings.

(** ** CronJobMonitoring *)

Module CronJobMonitoring.

Record KeepAliveStatus : Type := {
  lastPing : option string;
  status : Status.t;
  hoursAgo : option number;
}.

Record World : Type := {
  keepAliveQuery : Postgrest.query row;
  now : Z;
}.

Record State : Type := {
  keepAlive : KeepAliveStatus;
  loading : bool;
  testing : bool;
  autoRefresh : bool;
}.

Definition initialState : State :=
  {| keepAlive := {| lastPing := None; status := Status.unknown; hoursAgo := None |};
     loading := true; testing := false; autoRefresh := false |}.

Section Fetch.
Context `{host : Engine}.
Variable w : World.

(** The ladder applied to the truncated hour count. *)
Definition ladder (hoursAgo : number) : Status.t :=
  if JS.gtb hoursAgo (ofZ 48) then Status.error
  else if JS.gtb hoursAgo (ofZ 25) then Status.warning
  else Status.active.

(** The [if (data && data['Able to read DB']) ... else ...] block: the
    value handed to [setKeepAlive]. *)
Definition classify (data : option row) : KeepAliveStatus :=
  match data with
  | Some d =>
      if truthy (d !! "Able to read DB")
      then
        let lastPing := strOf (d !! "Able to read DB") in
        let hoursAgo := differenceInHours (DateAt (now w)) (newDate lastPing) in
        {| lastPing := Some lastPing;
           status := ladder hoursAgo;
           hoursAgo := Some hoursAgo |}
      else {| lastPing := None; status := Status.unknown; hoursAgo := None |}
  | None => {| lastPing := None; status := Status.unknown; hoursAgo := None |}
  end.

Definition failed : KeepAliveStatus :=
  {| lastPing := None; status := Status.error; hoursAgo := None |}.

(** The value of [keepAlive] after the fetch. *)
Definition fetched : KeepAliveStatus :=
  match keepAliveQuery w with
  | Resolved r =>
      if Postgrest.otherThanNoRows (Postgrest.error r) then failed
      else classify (Postgrest.data r)
  | Rejected _ => failed
  end.

Definition fetchKeepAliveStatus (st : State) : State :=
  {| keepAlive := fetched;
     loading := false;
     testing := testing st;
     autoRefresh := autoRefresh st |}.

End Fetch.

End CronJobMonitoring.

(** ** EdgeFunctionMonitor *)

Module EdgeFunctionMonitor.

Inductive Category : Type := email | task | meeting | system | utility.

Inductive Icon : Type :=
| Activity | Database | Shield | Users | Mail | AlertTriangle
| XCircle | RefreshCw | Bell | Calendar.

Record EdgeFunctionStatus : Type := {
  name : string;
  displayName : string;
  category : Category;
  status : Status.t;
  lastActivity : option string;
  activityCount : option Z;
  description : string;
  icon : Icon;
  isRequired : bool;
}.

(** The nine reads handed to [Promise.all], and the clock. *)
Record World : Type := {
  keepAliveResult : Postgrest.query (list row);
  emailHistoryResult : Postgrest.query (list row);
  bouncesResult : Postgrest.query (list row);
  repliesResult : Postgrest.query (list row);
  backupsResult : Postgrest.query (list row);
  securityLogsResult : Postgrest.query (list row);
  tasksResult : Postgrest.query (list row);
  meetingsResult : Postgrest.query (list row);
  profilesResult : Postgrest.query (list row);
  now : Z;
  refreshedAt : Z;
}.

Record State : Type := {
  functions : list EdgeFunctionStatus;
  loading : bool;
  testing : option string;
  lastRefresh : Z;
  toasts : list string;
}.

Definition initialState (mountedAt : Z) : State :=
  {| functions := []; loading := true; testing := None;
     lastRefresh := mountedAt; toasts := [] |}.

(** The nine responses once [Promise.all] has fulfilled. *)
Record Results : Type := {
  keepAlive_ : Postgrest.response (list row);
  emailHistory_ : Postgrest.response (list row);
  bounces_ : Postgrest.response (list row);
  replies_ : Postgrest.response (list row);
  backups_ : Postgrest.response (list row);
  securityLogs_ : Postgrest.response (list row);
  tasks_ : Postgrest.response (list row);
  meetings_ : Postgrest.response (list row);
  profiles_ : Postgrest.response (list row);
}.

(** [Promise.all]: fulfils with all the values, or rejects with the reason
    of a rejected member (here the first in the array; the caller only logs
    the reason). *)
Definition Promise_all (w : World) : awaited Results :=
  match keepAliveResult w, emailHistoryResult w, bouncesResult w,
        repliesResult w, backupsResult w, securityLogsResult w,
        tasksResult w, meetingsResult w, profilesResult w with
  | Resolved a, Resolved b, Resolved c, Resolved d, Resolved e,
    Resolved f, Resolved g, Resolved h, Resolved i =>
      Resolved {| keepAlive_ := a; emailHistory_ := b; bounces_ := c;
                  replies_ := d; backups_ := e; securityLogs_ := f;
                  tasks_ := g; meetings_ := h; profiles_ := i |}
  | Rejected m, _, _, _, _, _, _, _, _
  | _, Rejected m, _, _, _, _, _, _, _
  | _, _, Rejected m, _, _, _, _, _, _
  | _, _, _, Rejected m, _, _, _, _, _
  | _, _, _, _, Rejected m, _, _, _, _
  | _, _, _, _, _, Rejected m, _, _, _
  | _, _, _, _, _, _, Rejected m, _, _
  | _, _, _, _, _, _, _, Rejected m, _
  | _, _, _, _, _, _, _, _, Rejected m => Rejected m
  end.

Section Fetch.
Context `{host : Engine}.
Variable w : World.

(** [getStatus(data, field)]: [(status, lastActivity)]. *)
Definition getStatus (data : Postgrest.response (list row)) (field : string)
  : Status.t * option string :=
  match Postgrest.data data with
  | Some (first :: _) =>
      if truthy (first !! field)
      then
        let activityDate := strOf (first !! field) in
        let date := newDate activityDate in
        let hoursAgo :=
          JS.divc (JS.sub (ofZ (now w)) (getTime date)) (1000 * 60 * 60) in
        (if JS.ltb hoursAgo (ofZ 168) then Status.active else Status.unknown,
         Some activityDate)
      else (Status.unknown, None)
  | _ => (Status.unknown, None)
  end.

(** [r?.count ? 'active' : 'unknown'] *)
Definition countStatus (r : Postgrest.response (list row)) : Status.t :=
  match Postgrest.count r with
  | Some c => if Z.eqb c 0 then Status.unknown else Status.active
  | None => Status.unknown
  end.

(** [r?.data?.length ? 'active' : 'unknown'] *)
Definition lengthStatus (r : Postgrest.response (list row)) : Status.t :=
  match Postgrest.data r with
  | Some (_ :: _) => Status.active
  | _ => Status.unknown
  end.

(** [r?.data?.[0]?.created_at] *)
Definition firstCreatedAt (r : Postgrest.response (list row)) : option string :=
  match Postgrest.data r with
  | Some (first :: _) =>
      match first !! "created_at" with
      | Some (VStr s) => Some s
      | _ => None
      end
  | _ => None
  end.

Definition entry (name displayName : string) (category : Category)
    (status : Status.t) (lastActivity : option string)
    (activityCount : option Z) (description : string) (icon : Icon)
    (isRequired : bool) : EdgeFunctionStatus :=
  {| name := name; displayName := displayName; category := category;
     status := status; lastActivity := lastActivity;
     activityCount := activityCount; description := description;
     icon := icon; isRequired := isRequired |}.

Definition functionsList (rs : Results) : list EdgeFunctionStatus :=
  let keepAliveStatus := getStatus (keepAlive_ rs) "Able to read DB" in
  let emailStatus := getStatus (emailHistory_ rs) "sent_at" in
  let bounceStatus := getStatus (bounces_ rs) "bounced_at" in
  let replyStatus := getStatus (replies_ rs) "received_at" in
  let backupStatus := getStatus (backups_ rs) "created_at" in
  let securityStatus := getStatus (securityLogs_ rs) "created_at" in
  [ entry "keep-alive" "Keep Alive" system
      (fst keepAliveStatus) (snd keepAliveStatus) None
      "Keeps database active with periodic pings" Activity true;
    entry "create-backup" "Create Backup" system
      (fst backupStatus) (snd backupStatus) None
      "Creates database backups with auto-cleanup" Database true;
    entry "restore-backup" "Restore Backup" system
      Status.unknown None None
      "Restores database from backup file" Database true;
    entry "security-monitor" "Security Monitor" system
      (fst securityStatus) (snd securityStatus) None
      "Logs security events and anomalies" Shield true;
    entry "user-admin" "User Admin" system
      (countStatus (profiles_ rs)) None
      (Some (orZero (Postgrest.count (profiles_ rs))))
      "User CRUD operations with retry logic" Users true;
    entry "send-email" "Send Email" email
      (fst emailStatus) (snd emailStatus) None
      "Sends emails via Outlook with tracking" Mail true;
    entry "process-bounce-checks" "Bounce Checker" email
      (fst bounceStatus) (snd bounceStatus) None
      "Detects bounced emails from NDR" AlertTriangle true;
    entry "process-email-replies" "Reply Detector" email
      (fst replyStatus) (snd replyStatus) None
      "Detects and logs email replies" Mail true;
    entry "track-email-open" "Open Tracker" email
      (fst emailStatus) None None
      "Tracks email open events" Mail true;
    entry "track-email-click" "Click Tracker" email
      (fst emailStatus) None None
      "Tracks email link clicks" Mail true;
    entry "mark-email-bounced" "Mark Bounced" email
      (fst bounceStatus) None None
      "Marks emails as bounced" XCircle true;
    entry "sync-email-bounces" "Sync Bounces" email
      Status.deprecated None None
      "Legacy bounce sync (may be unnecessary)" RefreshCw false;
    entry "backfill-message-ids" "Backfill IDs" email
      Status.deprecated None None
      "One-time migration for message IDs" Database false;
    entry "send-task-reminders" "Task Reminders" task
      (lengthStatus (tasks_ rs)) (firstCreatedAt (tasks_ rs)) None
      "Sends daily task reminder emails" Bell true;
    entry "send-task-notification" "Task Notifications" task
      (lengthStatus (tasks_ rs)) None None
      "Sends task assignment notifications" Bell true;
    entry "create-teams-meeting" "Create Meeting" meeting
      (lengthStatus (meetings_ rs)) (firstCreatedAt (meetings_ rs)) None
      "Creates MS Teams meetings" Calendar true;
    entry "update-teams-meeting" "Update Meeting" meeting
      Status.unknown None None
      "Updates MS Teams meetings" Calendar true;
    entry "cancel-teams-meeting" "Cancel Meeting" meeting
      Status.unknown None None
      "Cancels MS Teams meetings" Calendar true;
    entry "fetch-user-display-names" "Fetch Names" utility
      Status.active None None
      "Gets user display names" Users true;
    entry "get-user-names" "Get Names" utility
      Status.active None None
      "Utility for user names" Users true;
    entry "sync-profile-names" "Sync Profiles" utility
      (countStatus (profiles_ rs)) None
      (Some (orZero (Postgrest.count (profiles_ rs))))
      "Syncs profile display names" RefreshCw true ].

Definition fetchFunctionStatuses (st : State) : State :=
  match Promise_all w with
  | Resolved rs =>
      {| functions := functionsList rs;
         loading := false;
         testing := testing st;
         lastRefresh := refreshedAt w;
         toasts := toasts st |}
  | Rejected _ =>
      {| functions := functions st;
         loading := false;
         testing := testing st;
         lastRefresh := lastRefresh st;
         toasts := toasts st ++ ["Failed to fetch edge function statuses"] |}
  end.

End Fetch.

(** *** What the view derives from the list *)

Definition categoryId (c : Category) : string :=
  match c with
  | email => "email"
  | task => "task"
  | meeting => "meeting"
  | system => "system"
  | utility => "utility"
  end.

Module Tab.

Inductive Icon : Type := Zap | Database | Mail | Bell | Calendar | Users.

Record t : Type := {
  id : string;
  label : string;
  icon : Icon;
}.

End Tab.

Definition categories : list Tab.t := [
  {| Tab.id := "all"; Tab.label := "All"; Tab.icon := Tab.Zap |};
  {| Tab.id := "system"; Tab.label := "System"; Tab.icon := Tab.Database |};
  {| Tab.id := "email"; Tab.label := "Email"; Tab.icon := Tab.Mail |};
  {| Tab.id := "task"; Tab.label := "Tasks"; Tab.icon := Tab.Bell |};
  {| Tab.id := "meeting"; Tab.label := "Meetings"; Tab.icon := Tab.Calendar |};
  {| Tab.id := "utility"; Tab.label := "Utility"; Tab.icon := Tab.Users |}
].

Definition getFunctionsByCategory (functions : list EdgeFunctionStatus)
    (category : string) : list EdgeFunctionStatus :=
  if String.eqb category "all" then functions
  else List.filter (fun f => String.eqb (categoryId (EdgeFunctionMonitor.category f)) category)
                   functions.

Module Stats.

Record t : Type := {
  total : nat;
  active : nat;
  deprecated : nat;
  unknown : nat;
}.

End Stats.

(** [functions.filter(f => f.status === s).length] *)
Definition countStatusIs (s : Status.t) (functions : list EdgeFunctionStatus) : nat :=
  length (List.filter (fun f => bool_decide (status f = s)) functions).

Definition stats (functions : list EdgeFunctionStatus) : Stats.t :=
  {| Stats.total := length functions;
     Stats.active := countStatusIs Status.active functions;
     Stats.deprecated := countStatusIs Status.deprecated functions;
     Stats.unknown := countStatusIs Status.unknown functions |}.

(** [disabled={testing === func.name || func.status === 'deprecated'}] *)
Definition testDisabled (testing : option string) (func : EdgeFunctionStatus) : bool :=
  match testing with
  | Some running => String.eqb running (name func)
  | None => false
  end
  || bool_decide (status func = Status.deprecated).

End EdgeFunctionMonitor.

(** ** DashboardCustomizeModal *)

Module DashboardCustomizeModal.

Inductive Icon : Type :=
| FileText | Users | Briefcase | Clock | TrendingUp | Zap | BarChart3.

(** [WidgetKey] is a union of seven string literals; the type is erased at
    run time, where a key is whatever string the caller passes. *)
Definition WidgetKey : Type := string.

Record DashboardWidget : Type := {
  key : WidgetKey;
  label : string;
  icon : Icon;
  visible : bool;
}.

Definition DEFAULT_WIDGETS : list DashboardWidget := [
  {| key := "leads"; label := "My Leads"; icon := FileText; visible := true |};
  {| key := "contacts"; label := "My Contacts"; icon := Users; visible := true |};
  {| key := "deals"; label := "My Deals"; icon := Briefcase; visible := true |};
  {| key := "actionItems"; label := "Action Items"; icon := Clock; visible := true |};
  {| key := "performance"; label := "My Performance"; icon := TrendingUp; visible := true |};
  {| key := "quickActions"; label := "Quick Actions"; icon := Zap; visible := true |};
  {| key := "leadStatus"; label := "Lead Status Overview"; icon := BarChart3; visible := true |}
].

(** [{ ...w, visible: v }] *)
Definition withVisible (w : DashboardWidget) (v : bool) : DashboardWidget :=
  {| key := key w; label := label w; icon := icon w; visible := v |}.

(** [visibleWidgets.includes(k)] *)
Definition includes (visibleWidgets : list WidgetKey) (k : WidgetKey) : bool :=
  existsb (String.eqb k) visibleWidgets.

(** The effect on [visibleWidgets] and [open]: the widgets it stores. *)
Definition initialWidgets (visibleWidgets : list WidgetKey) : list DashboardWidget :=
  map (fun w => withVisible w (includes visibleWidgets (key w))) DEFAULT_WIDGETS.

Definition toggleWidget (k : WidgetKey) (prev : list DashboardWidget)
  : list DashboardWidget :=
  map (fun w => if String.eqb (key w) k then withVisible w (negb (visible w)) else w)
      prev.

(** The list [handleSave] passes to [onSave]. *)
Definition handleSave (widgets : list DashboardWidget) : list WidgetKey :=
  map key (List.filter visible widgets).

Definition handleReset : list DashboardWidget :=
  map (fun w => withVisible w true) DEFAULT_WIDGETS.

(** What can happen to the [widgets] state once the modal is mounted. *)
Inductive event : Type :=
| Toggle (k : WidgetKey)
| ClickReset
| PropsChanged (visibleWidgets : list WidgetKey).

Definition step (widgets : list DashboardWidget) (e : event) : list DashboardWidget :=
  match e with
  | Toggle k => toggleWidget k widgets
  | ClickReset => handleReset
  | PropsChanged visibleWidgets => initialWidgets visibleWidgets
  end.

Definition run (events : list event) (widgets : list DashboardWidget)
  : list DashboardWidget :=
  fold_left step events widgets.

(** What [onSave] receives when Save is clicked after the modal was opened
    with [visibleWidgets] and [events] followed. *)
Definition saveAfter (visibleWidgets : list WidgetKey) (events : list event)
  : list WidgetKey :=
  handleSave (run events (initialWidgets visibleWidgets)).

End DashboardCustomizeModal.

(** ** vite.config.ts *)

Module ViteConfig.

Import JSString.

(** [build.rollupOptions.output.manualChunks(id)]; [None] is [undefined]. *)
Definition manualChunks (id : string) : option string :=
  if includes id "recharts" || includes id "d3-" then Some "vendor-charts"
  else if includes id "node_modules/react/" || includes id "node_modules/react-dom/"
  then Some "vendor-react"
  else if includes id "react-router-dom" || includes id "react-router"
  then Some "vendor-router"
  else if includes id "@radix-ui/react-dialog"
          || includes id "@radix-ui/react-dropdown-menu"
          || includes id "@radix-ui/react-popover"
          || includes id "@radix-ui/react-select"
          || includes id "@radix-ui/react-tabs"
          || includes id "@radix-ui/react-accordion"
  then Some "vendor-ui-heavy"
  else if includes id "@radix-ui/" then Some "vendor-ui-light"
  else if includes id "@tanstack/react-query" then Some "vendor-query"
  else if includes id "react-hook-form" || includes id "@hookform/"
          || includes id "node_modules/zod/"
  then Some "vendor-forms"
  else if includes id "@supabase/" then Some "vendor-supabase"
  else if includes id "date-fns" then Some "vendor-date"
  else None.

End ViteConfig.

(** ** A reference engine

    An engine whose [new Date(string)] accepts exactly the UTC form
    [YYYY-MM-DDTHH:mm:ss.sssZ] of the ECMAScript date-time string format and
    answers Invalid Date for every other string. *)

Module IsoEngine.

Definition digit (c : ascii) : option Z :=
  let n := Z.of_nat (nat_of_ascii c) in
  if (48 <=? n) && (n <=? 57) then Some (n - 48) else None.

Fixpoint number_ (s : string) (acc : Z) : option Z :=
  match s with
  | EmptyString => Some acc
  | String c s' =>
      match digit c with
      | Some d => number_ s' (10 * acc + d)
      | None => None
      end
  end.

(** The [n] digits starting at [i]. *)
Definition field (s : string) (i n : nat) : option Z :=
  let part := String.substring i n s in
  if Nat.eqb (String.length part) n then number_ part 0 else None.

Definition sep (s : string) (i : nat) (c : string) : bool :=
  String.eqb (String.substring i 1 s) c.

Definition InLeapYear (y : Z) : bool :=
  ((y mod 4 =? 0) && negb (y mod 100 =? 0)) || (y mod 400 =? 0).

Definition DayFromYear (y : Z) : Z :=
  365 * (y - 1970) + (y - 1969) / 4 - (y - 1901) / 100 + (y - 1601) / 400.

Definition DaysInMonth (y m : Z) : Z :=
  if m =? 2 then (if InLeapYear y then 29 else 28)
  else if (m =? 4) || (m =? 6) || (m =? 9) || (m =? 11) then 30
  else 31.

(** Days of the year before the first of month [m]. *)
Definition MonthStart (y m : Z) : Z :=
  nth (Z.to_nat (m - 1)) [0; 31; 59; 90; 120; 151; 181; 212; 243; 273; 304; 334] 0
  + (if InLeapYear y && (2 <? m) then 1 else 0).

Definition MakeDay (y m d : Z) : Z := DayFromYear y + MonthStart y m + (d - 1).

Definition MakeTime (h mi sec ms : Z) : Z :=
  ((h * 60 + mi) * 60 + sec) * 1000 + ms.

Definition MakeDate (day time : Z) : Z := day * 86400000 + time.

Definition parse (s : string) : Date :=
  if negb (Nat.eqb (String.length s) 24
           && sep s 4 "-" && sep s 7 "-" && sep s 10 "T" && sep s 13 ":"
           && sep s 16 ":" && sep s 19 "." && sep s 23 "Z")
  then InvalidDate
  else
    match field s 0 4, field s 5 2, field s 8 2, field s 11 2,
          field s 14 2, field s 17 2, field s 20 3 with
    | Some y, Some m, Some d, Some h, Some mi, Some sec, Some ms =>
        if (1 <=? m) && (m <=? 12) && (1 <=? d) && (d <=? DaysInMonth y m)
           && (h <=? 23) && (mi <=? 59) && (sec <=? 59)
        then DateAt (MakeDate (MakeDay y m d) (MakeTime h mi sec ms))
        else InvalidDate
    | _, _, _, _, _, _, _ => InvalidDate
    end.

Definition engine : Engine :=
  {| newDate := parse; newDate_empty := eq_refl |}.

End IsoEngine.


(** ** Sample worlds *)

Module Samples.

Definition noRows {D : Type} : Postgrest.query D :=
  Resolved {| Postgrest.data := None; Postgrest.count := None;
              Postgrest.error :=
                Some {| Postgrest.code := "PGRST116";
                        Postgrest.message := "no rows" |} |}.

Definition counted {D : Type} (n : Z) : Postgrest.query D :=
  Resolved {| Postgrest.data := None; Postgrest.count := Some n;
              Postgrest.error := None |}.

Definition failing {D : Type} (msg : string) : Postgrest.query D :=
  Resolved {| Postgrest.data := None; Postgrest.count := None;
              Postgrest.error :=
                Some {| Postgrest.code := "42501"; Postgrest.message := msg |} |}.

Definition one (r : row) : Postgrest.query row :=
  Resolved {| Postgrest.data := Some r; Postgrest.count := None;
              Postgrest.error := None |}.

Definition rows (l : list row) : Postgrest.query (list row) :=
  Resolved {| Postgrest.data := Some l; Postgrest.count := None;
              Postgrest.error := None |}.

(** A keep-alive row whose ping column holds [v]. *)
Definition ping (v : value) : row :=
  <["Able to read DB" := v]> (<["id" := VStr "1"]> ∅).

(** Midnight UTC, 1 January 2024. *)
Definition t0 : Z := 1704067200000.
Definition stamp0 : string := "2024-01-01T00:00:00.000Z".

Definition hours (h : Z) : Z := h * 3600000.
Definition minutes (m : Z) : Z := m * 60000.

Definition tableCounts (name : string) : Postgrest.query (list row) :=
  if String.eqb name "leads" then counted 12
  else if String.eqb name "contacts" then counted 40
  else if String.eqb name "deals" then failing "permission denied"
  else if String.eqb name "tasks" then Rejected "Failed to fetch"
  else if String.eqb name "profiles" then counted 3
  else counted 0.

(** A run of [fetchSystemStats] in which the last ping is [v] and the
    clock reads [age] milliseconds past [t0]. *)
Definition systemWorld (v : value) (age : Z) : SystemStatusSettings.World :=
  {| SystemStatusSettings.countQuery := tableCounts;
     SystemStatusSettings.backupQuery := noRows;
     SystemStatusSettings.keepAliveQuery := one (ping v);
     SystemStatusSettings.userCountQuery := counted 3;
     SystemStatusSettings.now := t0 + age;
     SystemStatusSettings.refreshedAt := t0 + age + 5 |}.

(** A run of [fetchSystemStats] whose final user count rejects. *)
Definition failedWorld (age : Z) : SystemStatusSettings.World :=
  {| SystemStatusSettings.countQuery := tableCounts;
     SystemStatusSettings.backupQuery := noRows;
     SystemStatusSettings.keepAliveQuery := noRows;
     SystemStatusSettings.userCountQuery := Rejected "Failed to fetch";
     SystemStatusSettings.now := t0 + age;
     SystemStatusSettings.refreshedAt := t0 + age + 5 |}.

Definition cronWorld (v : value) (age : Z) : CronJobMonitoring.World :=
  {| CronJobMonitoring.keepAliveQuery := one (ping v);
     CronJobMonitoring.now := t0 + age |}.

(** A run of [fetchFunctionStatuses] whose keep-alive read is [q]; every
    other read succeeds, the mail log with a row stamped [t0]. *)
Definition edgeWorld (q : Postgrest.query (list row)) (age : Z)
  : EdgeFunctionMonitor.World :=
  {| EdgeFunctionMonitor.keepAliveResult := q;
     EdgeFunctionMonitor.emailHistoryResult :=
       rows [<["sent_at" := VStr stamp0]> (<["id" := VStr "7"]> ∅)];
     EdgeFunctionMonitor.bouncesResult := rows [];
     EdgeFunctionMonitor.repliesResult := rows [];
     EdgeFunctionMonitor.backupsResult := rows [];
     EdgeFunctionMonitor.securityLogsResult := rows [];
     EdgeFunctionMonitor.tasksResult := rows [];
     EdgeFunctionMonitor.meetingsResult := rows [];
     EdgeFunctionMonitor.profilesResult := counted 3;
     EdgeFunctionMonitor.now := t0 + age;
     EdgeFunctionMonitor.refreshedAt := t0 + age + 5 |}.

End Samples.

(** ** Vocabulary of the statements *)

(** The row a [.single()] query leaves in [data], if any. *)
Definition rowOf (q : Postgrest.query row) : option row :=
  match q with
  | Resolved r => Postgrest.data r
  | Rejected _ => None
  end.

(** [resp.data[0]], if any. *)
Definition firstRow (resp : Postgrest.response (list row)) : option row :=
  match Postgrest.data resp with
  | Some (first :: _) => Some first
  | _ => None
  end.

(** The record is missing, or its [field] is absent or null. *)
Definition noTimestamp (field : string) (d : option row) : Prop :=
  match d with
  | None => True
  | Some r => r !! field = None \/ r !! field = Some VNull
  end.

(** The timestamp string a record carries in [field], [None] standing for
    a missing or null one. *)
Definition timestampOf (field : string) (d : option row) : option string :=
  match d with
  | Some r =>
      match r !! field with
      | Some (VStr s) => Some s
      | _ => None
      end
  | None => None
  end.

(** The nine reads of [fetchFunctionStatuses]. *)
Definition reads (w : EdgeFunctionMonitor.World) : list (Postgrest.query (list row)) :=
  [ EdgeFunctionMonitor.keepAliveResult w; EdgeFunctionMonitor.emailHistoryResult w;
    EdgeFunctionMonitor.bouncesResult w; EdgeFunctionMonitor.repliesResult w;
    EdgeFunctionMonitor.backupsResult w; EdgeFunctionMonitor.securityLogsResult w;
    EdgeFunctionMonitor.tasksResult w; EdgeFunctionMonitor.meetingsResult w;
    EdgeFunctionMonitor.profilesResult w ].

(** A read with its failure replaced by an empty answer. *)
Definition settle (q : Postgrest.query (list row)) : Postgrest.response (list row) :=
  match q with
  | Resolved r => r
  | Rejected _ =>
      {| Postgrest.data := None; Postgrest.count := None; Postgrest.error := None |}
  end.

(** The nine answers with every failed read replaced on its own. *)
Definition settled (w : EdgeFunctionMonitor.World) : EdgeFunctionMonitor.Results :=
  {| EdgeFunctionMonitor.keepAlive_ := settle (EdgeFunctionMonitor.keepAliveResult w);
     EdgeFunctionMonitor.emailHistory_ := settle (EdgeFunctionMonitor.emailHistoryResult w);
     EdgeFunctionMonitor.bounces_ := settle (EdgeFunctionMonitor.bouncesResult w);
     EdgeFunctionMonitor.replies_ := settle (EdgeFunctionMonitor.repliesResult w);
     EdgeFunctionMonitor.backups_ := settle (EdgeFunctionMonitor.backupsResult w);
     EdgeFunctionMonitor.securityLogs_ := settle (EdgeFunctionMonitor.securityLogsResult w);
     EdgeFunctionMonitor.tasks_ := settle (EdgeFunctionMonitor.tasksResult w);
     EdgeFunctionMonitor.meetings_ := settle (EdgeFunctionMonitor.meetingsResult w);
     EdgeFunctionMonitor.profiles_ := settle (EdgeFunctionMonitor.profilesResult w) |}.

(** A read that came back, with or without an error object. *)
Definition resolved (q : Postgrest.query (list row)) : bool :=
  match q with
  | Resolved _ => true
  | Rejected _ => false
  end.

(** The status shown for the function called [name]. *)
Definition statusOf (name : string) (fs : list EdgeFunctionMonitor.EdgeFunctionStatus)
  : option Status.t :=
  EdgeFunctionMonitor.status <$>
    List.find (fun f => String.eqb (EdgeFunctionMonitor.name f) name) fs.

(** What [toggleWidget k] does to one widget. *)
Definition flipped (k : DashboardCustomizeModal.WidgetKey)
    (w : DashboardCustomizeModal.DashboardWidget)
  : DashboardCustomizeModal.DashboardWidget :=
  {| DashboardCustomizeModal.key := DashboardCustomizeModal.key w;
     DashboardCustomizeModal.label := DashboardCustomizeModal.label w;
     DashboardCustomizeModal.icon := DashboardCustomizeModal.icon w;
     DashboardCustomizeModal.visible :=
       if String.eqb (DashboardCustomizeModal.key w) k
       then negb (DashboardCustomizeModal.visible w)
       else DashboardCustomizeModal.visible w |}.

(** A run of [fetchSystemStats] per world, in order. *)
Definition refreshes `{host : Engine} (ws : list SystemStatusSettings.World)
    (st : SystemStatusSettings.State) : SystemStatusSettings.State :=
  fold_left (fun st w => SystemStatusSettings.fetchSystemStats w st) ws st.

(** The fetch reaches [setStats]. *)
Definition succeeds (w : SystemStatusSettings.World) : bool :=
  match SystemStatusSettings.userCountQuery w with
  | Resolved _ => true
  | Rejected _ => false
  end.

(** The count of the table came back without an error object. *)
Definition counted (w : SystemStatusSettings.World)
    (config : SystemStatusSettings.TableConfig.t) : bool :=
  match SystemStatusSettings.countQuery w (SystemStatusSettings.TableConfig.name config) with
  | Resolved r =>
      match Postgrest.error r with
      | Some _ => false
      | None => true
      end
  | Rejected _ => false
  end.

(** The keep-alive read of [CronJobMonitoring] failed: it rejected, or came
    back with an error other than the no-rows one. *)
Definition readFailed (w : CronJobMonitoring.World) : bool :=
  match CronJobMonitoring.keepAliveQuery w with
  | Resolved r => Postgrest.otherThanNoRows (Postgrest.error r)
  | Rejected _ => true
  end.

(** A run of [fetchFunctionStatuses] per world, in order. *)
Definition edgeRefreshes `{host : Engine} (ws : list EdgeFunctionMonitor.World)
    (st : EdgeFunctionMonitor.State) : EdgeFunctionMonitor.State :=
  fold_left (fun st w => EdgeFunctionMonitor.fetchFunctionStatuses w st) ws st.

(** The order of the badge variants, from the weakest. *)
Definition variantRank (v : SystemStatusSettings.BadgeVariant) : Z :=
  match v with
  | SystemStatusSettings.outline => 0
  | SystemStatusSettings.secondary => 1
  | SystemStatusSettings.default => 2
  end.

(** The rules of [manualChunks] as a table, in the order of the source: the
    fragments a rule looks for, and the chunk it names. *)
Definition chunkRules : list (list string * string) := [
  (["recharts"; "d3-"], "vendor-charts");
  (["node_modules/react/"; "node_modules/react-dom/"], "vendor-react");
  (["react-router-dom"; "react-router"], "vendor-router");
  (["@radix-ui/react-dialog"; "@radix-ui/react-dropdown-menu";
    "@radix-ui/react-popover"; "@radix-ui/react-select";
    "@radix-ui/react-tabs"; "@radix-ui/react-accordion"], "vendor-ui-heavy");
  (["@radix-ui/"], "vendor-ui-light");
  (["@tanstack/react-query"], "vendor-query");
  (["react-hook-form"; "@hookform/"; "node_modules/zod/"], "vendor-forms");
  (["@supabase/"], "vendor-supabase");
  (["date-fns"], "vendor-date")
].

(** The position, in a list of rules, of the first rule that finds one of
    its fragments in [id]; the number of rules when none does. *)
Fixpoint firstRule (rules : list (list string * string)) (id : string) : nat :=
  match rules with
  | [] => 0%nat
  | rule :: rules' =>
      if existsb (JSString.includes id) (fst rule) then 0%nat
      else S (firstRule rules' id)
  end.

(** How often the switch of [k] is toggled in [toggles]. *)
Definition occurrences (k : DashboardCustomizeModal.WidgetKey)
    (toggles : list DashboardCustomizeModal.WidgetKey) : nat :=
  length (List.filter (String.eqb k) toggles).

(** One when the status is the given one, zero otherwise. *)
Definition indicator (s x : Status.t) : nat :=
  if bool_decide (x = s) then 1%nat else 0%nat.

(** The seven keys, in the order of [DEFAULT_WIDGETS]. *)
Definition canonicalKeys : list DashboardCustomizeModal.WidgetKey :=
  map DashboardCustomizeModal.key DashboardCustomizeModal.DEFAULT_WIDGETS.


(** * Properties *)

(** ** The reference engine on sample strings *)

Example iso_epoch : IsoEngine.parse "1970-01-01T00:00:00.000Z" = DateAt 0.
Proof. reflexivity. Qed.

Example iso_2024 : IsoEngine.parse "2024-01-01T00:00:00.000Z" = DateAt 1704067200000.
Proof. reflexivity. Qed.

Example iso_leap : IsoEngine.parse "2000-03-01T12:30:15.250Z" = DateAt 951913815250.
Proof. reflexivity. Qed.

Example iso_garbage : IsoEngine.parse "not-a-date" = InvalidDate.
Proof. reflexivity. Qed.

(** ** Arithmetic of the hour counts *)

(** Decides a goal about a ladder of [<?] and [<=?] tests from the bounds
    on the age that are in the context. *)
Ltac by_thresholds :=
  repeat match goal with
    | |- context [Z.ltb ?a ?b] => destruct (Z.ltb_spec a b)
    | |- context [Z.leb ?a ?b] => destruct (Z.leb_spec a b)
    end;
  first [reflexivity | lia].

Section HourArithmetic.

Lemma ltb_ofZ (a b : Z) : JS.ltb (ofZ a) (ofZ b) = (a <? b).
Proof.
  unfold JS.ltb, ofZ, Qle_bool, inject_Z; simpl.
  rewrite !Z.mul_1_r. symmetry. apply Z.ltb_antisym.
Qed.

Lemma gtb_ofZ (a b : Z) : JS.gtb (ofZ a) (ofZ b) = (b <? a).
Proof. apply ltb_ofZ. Qed.

Lemma ltb_NaN_l (b : number) : JS.ltb NaN b = false.
Proof. reflexivity. Qed.

Lemma ltb_NaN_r (a : number) : JS.ltb a NaN = false.
Proof. destruct a; reflexivity. Qed.

Lemma Qtrunc_quot (a : Z) (d : positive) :
  Qtrunc (inject_Z a / inject_Z (Z.pos d)) = Z.quot a (Z.pos d).
Proof.
  unfold Qtrunc, Qle_bool, Qdiv, Qmult, Qinv, inject_Z, Qceiling, Qfloor, Qopp; simpl.
  rewrite !Z.mul_1_r, !Pos.mul_1_l, Z.mul_0_l.
  destruct (Z.leb_spec 0 a) as [Hnn | Hneg].
  - symmetry. apply Z.quot_div_nonneg; lia.
  - rewrite <- (Z.quot_div_nonneg (- a) (Z.pos d)) by lia.
    rewrite Z.quot_opp_l by lia. lia.
Qed.

(** The hour count of two valid dates is the truncated quotient of their
    distance in milliseconds. *)
Lemma differenceInHours_valid (l r : Z) :
  differenceInHours (DateAt l) (DateAt r) = ofZ (Z.quot (l - r) 3600000).
Proof.
  unfold differenceInHours, differenceInMilliseconds, MILLISECONDS_IN_HOUR.
  simpl. unfold ofZ at 1 2.
  change (inject_Z l - inject_Z r)%Q with (Qplus (inject_Z l) (Qopp (inject_Z r))).
  unfold JS.divc, JS.sub, Math_trunc, ofZ. do 2 f_equal.
  replace (Z.quot (l - r) 3600000) with (Z.quot (l * 1 + - r * 1) 3600000)
    by (f_equal; lia).
  exact (Qtrunc_quot (l * 1 + - r * 1) 3600000).
Qed.

Lemma differenceInHours_invalid (l : Date) :
  differenceInHours l InvalidDate = NaN.
Proof. destruct l; reflexivity. Qed.

(** A truncated hour count is below a positive bound exactly when the
    distance is below that many hours. *)
Lemma quot_hours_lt (d k : Z) :
  0 < k -> (Z.quot d 3600000 <? k) = (d <? k * 3600000).
Proof.
  intros Hk.
  destruct (Z.ltb_spec d (k * 3600000)) as [Hlt | Hge].
  - apply Z.ltb_lt.
    destruct (Z.le_gt_cases 0 d) as [Hnn | Hneg].
    + rewrite Z.quot_div_nonneg by lia.
      apply Z.div_lt_upper_bound; lia.
    + pose proof (Z.quot_opp_l d 3600000 ltac:(lia)) as Ho.
      pose proof (Z.quot_pos (- d) 3600000 ltac:(lia) ltac:(lia)). lia.
  - apply Z.ltb_ge.
    rewrite Z.quot_div_nonneg by lia.
    apply Z.div_le_lower_bound; lia.
Qed.

(** A truncated hour count exceeds a non-negative bound exactly when the
    distance reaches the next full hour. *)
Lemma quot_hours_gt (d k : Z) :
  0 <= k -> (k <? Z.quot d 3600000) = ((k + 1) * 3600000 <=? d).
Proof.
  intros Hk.
  destruct (Z.leb_spec ((k + 1) * 3600000) d) as [Hge | Hlt].
  - apply Z.ltb_lt.
    rewrite Z.quot_div_nonneg by lia.
    assert (k + 1 <= d / 3600000) by (apply Z.div_le_lower_bound; lia). lia.
  - apply Z.ltb_ge.
    destruct (Z.le_gt_cases 0 d) as [Hnn | Hneg].
    + rewrite Z.quot_div_nonneg by lia.
      assert (d / 3600000 < k + 1) by (apply Z.div_lt_upper_bound; lia). lia.
    + pose proof (Z.quot_opp_l d 3600000 ltac:(lia)) as Ho.
      pose proof (Z.quot_pos (- d) 3600000 ltac:(lia) ltac:(lia)). lia.
Qed.

(** The fractional hour count of [getStatus] against an integer bound. *)
Lemma hours_lt (now t k : Z) :
  JS.ltb (JS.divc (JS.sub (ofZ now) (ofZ t)) (1000 * 60 * 60)) (ofZ k)
  = (now - t <? k * 3600000).
Proof.
  unfold JS.ltb, JS.divc, JS.sub, ofZ, Qle_bool, Qdiv, Qmult, Qinv, Qminus,
    Qplus, Qopp, inject_Z; simpl.
  rewrite !Z.mul_1_r.
  rewrite Z.ltb_antisym. reflexivity.
Qed.

End HourArithmetic.

(** ** The keep-alive badge of SystemStatusSettings *)

Section SystemStatusRecency.
Context `{host : Engine}.
Import SystemStatusSettings.

Lemma valid_truthy (s : string) (t : Z) :
  newDate s = DateAt t -> truthy (Some (VStr s)) = true.
Proof.
  intros Hs. simpl. destruct (String.eqb_spec s "") as [-> | Hne]; [| reflexivity].
  rewrite newDate_empty in Hs. discriminate.
Qed.

(** On a timestamp that parses, the ladder compares the age in
    milliseconds with 25 and 48 hours. *)
Lemma classify_valid (w : World) (s : string) (t : Z) :
  newDate s = DateAt t ->
  classify w s =
    if now w - t <? 25 * 3600000 then Status.active
    else if now w - t <? 48 * 3600000 then Status.warning
    else Status.error.
Proof.
  intros Hs. unfold classify. rewrite Hs, differenceInHours_valid, !ltb_ofZ.
  rewrite !quot_hours_lt by lia. reflexivity.
Qed.

(** On a timestamp that does not parse, every comparison is false. *)
Lemma classify_invalid (w : World) (s : string) :
  newDate s = InvalidDate -> classify w s = Status.error.
Proof. intros Hs. unfold classify. rewrite Hs. reflexivity. Qed.

(** Whatever [collect] hands to [setStats] carries the badge computed by
    the keep-alive block. *)
Lemma collect_keepAlive (w : World) (sts : SystemStats) :
  collect w = inl sts ->
  keepAliveStatus sts = fst (fetchKeepAlive w) /\
  lastKeepAlive sts = snd (fetchKeepAlive w).
Proof.
  unfold collect. destruct (fetchLastBackup w), (fetchKeepAlive w).
  destruct (userCountQuery w); [discriminate |].
  intros [= <-]. split; reflexivity.
Qed.

(** [collect] fails exactly when the final user count rejects. *)
Lemma collect_inr (w : World) (msg : string) :
  collect w = inr msg <-> userCountQuery w = Rejected msg.
Proof.
  unfold collect. destruct (fetchLastBackup w), (fetchKeepAlive w).
  destruct (userCountQuery w); split; congruence.
Qed.

(** C1.  For a keep-alive timestamp that parses, the badge that
    [fetchSystemStats] stores is [active] when the age is below 25 hours,
    [warning] from 25 hours up to but not including 48 hours, and [error]
    from 48 hours on. *)
Theorem system_status_recency_thresholds
    (w : World) (r : Postgrest.response row) (d : row) (s : string) (t : Z)
    (sts : SystemStats) :
  keepAliveQuery w = Resolved r ->
  Postgrest.data r = Some d ->
  d !! "Able to read DB" = Some (VStr s) ->
  newDate s = DateAt t ->
  collect w = inl sts ->
  (now w - t < 25 * 3600000 -> keepAliveStatus sts = Status.active) /\
  (25 * 3600000 <= now w - t < 48 * 3600000 ->
     keepAliveStatus sts = Status.warning) /\
  (48 * 3600000 <= now w - t -> keepAliveStatus sts = Status.error).
Proof.
  intros Hq Hd Hf Hs Hc.
  destruct (collect_keepAlive w sts Hc) as [-> _].
  unfold fetchKeepAlive, keepAliveOf. rewrite Hq, Hd, Hf.
  rewrite (valid_truthy s t Hs). cbn [fst strOf].
  rewrite (classify_valid w s t Hs).
  repeat split; intros Hage; by_thresholds.
Qed.

End SystemStatusRecency.

Lemma system_status_recency_thresholds_witness :
  exists sts,
    SystemStatusSettings.collect (host := IsoEngine.engine)
      (Samples.systemWorld (VStr Samples.stamp0) (Samples.hours 30)) = inl sts /\
    SystemStatusSettings.keepAliveStatus sts = Status.warning.
Proof.
  eexists. split; [reflexivity |].
  refine (proj1 (proj2 (@system_status_recency_thresholds IsoEngine.engine
            (Samples.systemWorld (VStr Samples.stamp0) (Samples.hours 30))
            _ _ Samples.stamp0 Samples.t0 _
            eq_refl eq_refl eq_refl eq_refl eq_refl)) _).
  vm_compute. split; [discriminate | reflexivity].
Defined.

(** ** The keep-alive badge of CronJobMonitoring *)

Section CronRecency.
Context `{host : Engine}.
Import CronJobMonitoring.

(** On an hour count that is a number, the ladder of [CronJobMonitoring]
    asks for more than 48, then more than 25, full hours. *)
Lemma cron_ladder_hours (h : Z) :
  ladder (ofZ h) =
    if 48 <? h then Status.error
    else if 25 <? h then Status.warning
    else Status.active.
Proof. unfold ladder. rewrite !gtb_ofZ. reflexivity. Qed.

Lemma cron_ladder_NaN : ladder NaN = Status.active.
Proof. reflexivity. Qed.

(** What [CronJobMonitoring] computes for a timestamp that parses: since
    the hour count is truncated before the strict comparisons, the badge
    turns [warning] at 26 hours and [error] at 49 hours. *)
Lemma cron_classify_valid (w : World) (d : row) (s : string) (t : Z) :
  d !! "Able to read DB" = Some (VStr s) ->
  newDate s = DateAt t ->
  classify w (Some d) =
    {| lastPing := Some s;
       status := if 49 * 3600000 <=? now w - t then Status.error
                 else if 26 * 3600000 <=? now w - t then Status.warning
                 else Status.active;
       hoursAgo := Some (ofZ (Z.quot (now w - t) 3600000)) |}.
Proof.
  intros Hf Hs. unfold classify. rewrite Hf, (valid_truthy s t Hs).
  cbn [strOf]. rewrite Hs, differenceInHours_valid, cron_ladder_hours.
  rewrite !quot_hours_gt by lia. reflexivity.
Qed.

Lemma cron_classify_invalid (w : World) (d : row) (s : string) :
  d !! "Able to read DB" = Some (VStr s) ->
  s <> "" ->
  newDate s = InvalidDate ->
  classify w (Some d) =
    {| lastPing := Some s; status := Status.active; hoursAgo := Some NaN |}.
Proof.
  intros Hf Hne Hs. unfold classify. rewrite Hf. simpl.
  destruct (String.eqb_spec s ""); [contradiction |]. simpl.
  rewrite Hs. reflexivity.
Qed.

End CronRecency.

(** C2.  A ping that is 25 hours and 30 minutes old is badged [active] by
    [CronJobMonitoring], and one that is 48 hours and 30 minutes old is badged
    [warning]; [SystemStatusSettings] badges the same pings [warning] and
    [error]. *)
Theorem cron_recency_off_by_one_hour :
  CronJobMonitoring.status
    (CronJobMonitoring.fetched (host := IsoEngine.engine)
       (Samples.cronWorld (VStr Samples.stamp0)
          (Samples.hours 25 + Samples.minutes 30))) = Status.active /\
  CronJobMonitoring.status
    (CronJobMonitoring.fetched (host := IsoEngine.engine)
       (Samples.cronWorld (VStr Samples.stamp0)
          (Samples.hours 48 + Samples.minutes 30))) = Status.warning /\
  fst (SystemStatusSettings.fetchKeepAlive (host := IsoEngine.engine)
         (Samples.systemWorld (VStr Samples.stamp0)
            (Samples.hours 25 + Samples.minutes 30))) = Status.warning /\
  fst (SystemStatusSettings.fetchKeepAlive (host := IsoEngine.engine)
         (Samples.systemWorld (VStr Samples.stamp0)
            (Samples.hours 48 + Samples.minutes 30))) = Status.error.
Proof. vm_compute. repeat split. Qed.

(** ** [getStatus] of EdgeFunctionMonitor *)

Section EdgeRecency.
Context `{host : Engine}.
Import EdgeFunctionMonitor.

Lemma getStatus_valid (w : World) (resp : Postgrest.response (list row))
    (first : row) (rest : list row) (field s : string) (t : Z) :
  Postgrest.data resp = Some (first :: rest) ->
  first !! field = Some (VStr s) ->
  newDate s = DateAt t ->
  getStatus w resp field =
    (if now w - t <? 168 * 3600000 then Status.active else Status.unknown,
     Some s).
Proof.
  intros Hd Hf Hs. unfold getStatus. rewrite Hd, Hf, (valid_truthy s t Hs).
  cbn [strOf]. rewrite Hs. cbn [getTime]. rewrite hours_lt. reflexivity.
Qed.

Lemma getStatus_invalid (w : World) (resp : Postgrest.response (list row))
    (first : row) (rest : list row) (field s : string) :
  Postgrest.data resp = Some (first :: rest) ->
  first !! field = Some (VStr s) ->
  s <> "" ->
  newDate s = InvalidDate ->
  getStatus w resp field = (Status.unknown, Some s).
Proof.
  intros Hd Hf Hne Hs. unfold getStatus. rewrite Hd, Hf. simpl.
  destruct (String.eqb_spec s ""); [contradiction |]. simpl.
  rewrite Hs. reflexivity.
Qed.

(** C4.  For an activity timestamp that parses, [getStatus] answers
    [active] when the age is below 168 hours and [unknown] otherwise, the
    age of exactly 168 hours included. *)
Theorem getStatus_recency_threshold
    (w : World) (resp : Postgrest.response (list row))
    (first : row) (rest : list row) (field s : string) (t : Z) :
  Postgrest.data resp = Some (first :: rest) ->
  first !! field = Some (VStr s) ->
  newDate s = DateAt t ->
  (now w - t < 168 * 3600000 ->
     getStatus w resp field = (Status.active, Some s)) /\
  (168 * 3600000 <= now w - t ->
     getStatus w resp field = (Status.unknown, Some s)).
Proof.
  intros Hd Hf Hs. rewrite (getStatus_valid w resp first rest field s t Hd Hf Hs).
  split; intros Hage; by_thresholds.
Qed.

End EdgeRecency.

Lemma getStatus_recency_threshold_witness :
  EdgeFunctionMonitor.getStatus (host := IsoEngine.engine)
    (Samples.edgeWorld (Samples.rows [Samples.ping (VStr Samples.stamp0)])
       (Samples.hours 168))
    {| Postgrest.data := Some [Samples.ping (VStr Samples.stamp0)];
       Postgrest.count := None; Postgrest.error := None |}
    "Able to read DB"
  = (Status.unknown, Some Samples.stamp0).
Proof.
  refine (proj2 (@getStatus_recency_threshold IsoEngine.engine
            (Samples.edgeWorld (Samples.rows [Samples.ping (VStr Samples.stamp0)])
               (Samples.hours 168))
            {| Postgrest.data := Some [Samples.ping (VStr Samples.stamp0)];
               Postgrest.count := None; Postgrest.error := None |}
            (Samples.ping (VStr Samples.stamp0)) [] "Able to read DB"
            Samples.stamp0 Samples.t0 eq_refl eq_refl eq_refl) _).
  vm_compute. discriminate.
Defined.

(** ** Timestamps that do not parse *)

(** C3, as stated, fails: on the string [not-a-date], which does not parse,
    [SystemStatusSettings] answers [error] and [CronJobMonitoring] answers
    [active]; neither answers [unknown]. *)
Lemma malformed_timestamp_not_unknown :
  newDate (Engine := IsoEngine.engine) "not-a-date" = InvalidDate /\
  fst (SystemStatusSettings.keepAliveOf (host := IsoEngine.engine)
         (Samples.systemWorld (VStr "not-a-date") 0)
         (Some (Samples.ping (VStr "not-a-date")))) = Status.error /\
  CronJobMonitoring.status
    (CronJobMonitoring.classify (host := IsoEngine.engine)
       (Samples.cronWorld (VStr "not-a-date") 0)
       (Some (Samples.ping (VStr "not-a-date")))) = Status.active /\
  Status.error <> Status.unknown /\
  Status.active <> Status.unknown.
Proof. vm_compute. repeat split; discriminate. Qed.

Section Malformed.
Context `{host : Engine}.

(** The empty string is falsy: all three sites treat it as a missing
    timestamp. *)
Lemma empty_timestamp_unknown
    (ws : SystemStatusSettings.World) (wc : CronJobMonitoring.World)
    (we : EdgeFunctionMonitor.World) (d : row) (rest : list row) :
  d !! "Able to read DB" = Some (VStr "") ->
  fst (SystemStatusSettings.keepAliveOf ws (Some d)) = Status.unknown /\
  CronJobMonitoring.status (CronJobMonitoring.classify wc (Some d))
    = Status.unknown /\
  fst (EdgeFunctionMonitor.getStatus we
         {| Postgrest.data := Some (d :: rest); Postgrest.count := None;
            Postgrest.error := None |} "Able to read DB") = Status.unknown.
Proof.
  intros Hf.
  unfold SystemStatusSettings.keepAliveOf, CronJobMonitoring.classify,
    EdgeFunctionMonitor.getStatus.
  simpl. rewrite Hf. simpl. repeat split.
Qed.

(** C3, amended.  A timestamp string that does not parse raises nothing at
    any of the three sites.  When it is not empty, each site answers what its
    comparisons give on NaN: [error] in [SystemStatusSettings], [active]
    (with an hour count of NaN) in [CronJobMonitoring], [unknown] in
    [getStatus].  The empty string is taken for a missing timestamp and
    answered [unknown] by all three. *)
Theorem malformed_timestamp_labels
    (ws : SystemStatusSettings.World) (wc : CronJobMonitoring.World)
    (we : EdgeFunctionMonitor.World)
    (d : row) (rest : list row) (s : string) :
  d !! "Able to read DB" = Some (VStr s) ->
  newDate s = InvalidDate ->
  (s <> "" ->
   SystemStatusSettings.keepAliveOf ws (Some d) = (Status.error, Some s) /\
   CronJobMonitoring.classify wc (Some d) =
     {| CronJobMonitoring.lastPing := Some s;
        CronJobMonitoring.status := Status.active;
        CronJobMonitoring.hoursAgo := Some NaN |} /\
   EdgeFunctionMonitor.getStatus we
     {| Postgrest.data := Some (d :: rest); Postgrest.count := None;
        Postgrest.error := None |} "Able to read DB"
   = (Status.unknown, Some s)) /\
  (s = "" ->
   fst (SystemStatusSettings.keepAliveOf ws (Some d)) = Status.unknown /\
   CronJobMonitoring.status (CronJobMonitoring.classify wc (Some d))
     = Status.unknown /\
   fst (EdgeFunctionMonitor.getStatus we
          {| Postgrest.data := Some (d :: rest); Postgrest.count := None;
             Postgrest.error := None |} "Able to read DB") = Status.unknown).
Proof.
  intros Hf Hs. split.
  - intros Hne. split; [| split].
    + unfold SystemStatusSettings.keepAliveOf. rewrite Hf. simpl.
      destruct (String.eqb_spec s ""); [contradiction |]. simpl.
      rewrite (classify_invalid ws s Hs). reflexivity.
    + apply cron_classify_invalid; assumption.
    + eapply getStatus_invalid; eauto.
  - intros ->. apply empty_timestamp_unknown, Hf.
Qed.

End Malformed.

Lemma malformed_timestamp_labels_witness :
  SystemStatusSettings.keepAliveOf (host := IsoEngine.engine)
    (Samples.systemWorld (VStr "not-a-date") 0)
    (Some (Samples.ping (VStr "not-a-date"))) = (Status.error, Some "not-a-date") /\
  CronJobMonitoring.classify (host := IsoEngine.engine)
    (Samples.cronWorld (VStr "not-a-date") 0)
    (Some (Samples.ping (VStr "not-a-date"))) =
    {| CronJobMonitoring.lastPing := Some "not-a-date";
       CronJobMonitoring.status := Status.active;
       CronJobMonitoring.hoursAgo := Some NaN |} /\
  EdgeFunctionMonitor.getStatus (host := IsoEngine.engine)
    (Samples.edgeWorld (Samples.rows []) 0)
    {| Postgrest.data := Some [Samples.ping (VStr "not-a-date")];
       Postgrest.count := None; Postgrest.error := None |} "Able to read DB"
  = (Status.unknown, Some "not-a-date").
Proof.
  apply (@malformed_timestamp_labels IsoEngine.engine
           (Samples.systemWorld (VStr "not-a-date") 0)
           (Samples.cronWorld (VStr "not-a-date") 0)
           (Samples.edgeWorld (Samples.rows []) 0)
           (Samples.ping (VStr "not-a-date")) [] "not-a-date").
  - reflexivity.
  - reflexivity.
  - discriminate.
Defined.

(** ** Missing timestamps *)

Section Missing.
Context `{host : Engine}.

Lemma noTimestamp_falsy (field : string) (r : row) :
  noTimestamp field (Some r) -> truthy (r !! field) = false.
Proof. intros [-> | ->]; reflexivity. Qed.

(** C5.  A missing record, or one whose timestamp column is absent or
    null, is labelled [unknown] at each site: [fetchSystemStats] stores
    [unknown], [fetchKeepAliveStatus] (when the read itself did not fail)
    sets [unknown], and [getStatus] returns [unknown]. *)
Theorem missing_timestamp_unknown :
  (forall (w : SystemStatusSettings.World) (sts : SystemStatusSettings.SystemStats),
      noTimestamp "Able to read DB" (rowOf (SystemStatusSettings.keepAliveQuery w)) ->
      SystemStatusSettings.collect w = inl sts ->
      SystemStatusSettings.keepAliveStatus sts = Status.unknown /\
      SystemStatusSettings.lastKeepAlive sts = None) /\
  (forall (w : CronJobMonitoring.World) (st : CronJobMonitoring.State)
          (r : Postgrest.response row),
      CronJobMonitoring.keepAliveQuery w = Resolved r ->
      Postgrest.otherThanNoRows (Postgrest.error r) = false ->
      noTimestamp "Able to read DB" (Postgrest.data r) ->
      CronJobMonitoring.keepAlive (CronJobMonitoring.fetchKeepAliveStatus w st) =
        {| CronJobMonitoring.lastPing := None;
           CronJobMonitoring.status := Status.unknown;
           CronJobMonitoring.hoursAgo := None |}) /\
  (forall (w : EdgeFunctionMonitor.World) (resp : Postgrest.response (list row))
          (field : string),
      noTimestamp field (firstRow resp) ->
      EdgeFunctionMonitor.getStatus w resp field = (Status.unknown, None)).
Proof.
  split; [| split].
  - intros w sts Hno Hc.
    destruct (collect_keepAlive w sts Hc) as [-> ->].
    unfold SystemStatusSettings.fetchKeepAlive, rowOf in *.
    destruct (SystemStatusSettings.keepAliveQuery w) as [m | r]; [split; reflexivity |].
    unfold SystemStatusSettings.keepAliveOf.
    destruct (Postgrest.data r) as [d |]; [| split; reflexivity].
    rewrite (noTimestamp_falsy _ _ Hno). split; reflexivity.
  - intros w st r Hq He Hno. unfold CronJobMonitoring.fetchKeepAliveStatus.
    cbn [CronJobMonitoring.keepAlive]. unfold CronJobMonitoring.fetched.
    rewrite Hq, He. unfold CronJobMonitoring.classify.
    destruct (Postgrest.data r) as [d |]; [| reflexivity].
    rewrite (noTimestamp_falsy _ _ Hno). reflexivity.
  - intros w resp field Hno. unfold EdgeFunctionMonitor.getStatus, firstRow in *.
    destruct (Postgrest.data resp) as [[| first rest] |]; try reflexivity.
    rewrite (noTimestamp_falsy _ _ Hno). reflexivity.
Qed.

End Missing.

Lemma missing_timestamp_unknown_witness :
  SystemStatusSettings.keepAliveStatus
    (match SystemStatusSettings.collect (host := IsoEngine.engine)
             (Samples.systemWorld VNull 0) with
     | inl sts => sts
     | inr _ =>
         {| SystemStatusSettings.tables := [];
            SystemStatusSettings.totalRecords := 0;
            SystemStatusSettings.registeredUsers := 0;
            SystemStatusSettings.lastBackup := None;
            SystemStatusSettings.lastBackupError := false;
            SystemStatusSettings.storageUsed := NaN;
            SystemStatusSettings.keepAliveStatus := Status.error;
            SystemStatusSettings.lastKeepAlive := None;
            SystemStatusSettings.queryErrors := [] |}
     end) = Status.unknown /\
  CronJobMonitoring.status
    (CronJobMonitoring.keepAlive
       (CronJobMonitoring.fetchKeepAliveStatus (host := IsoEngine.engine)
          {| CronJobMonitoring.keepAliveQuery := Samples.noRows;
             CronJobMonitoring.now := Samples.t0 |}
          CronJobMonitoring.initialState)) = Status.unknown /\
  EdgeFunctionMonitor.getStatus (host := IsoEngine.engine)
    (Samples.edgeWorld (Samples.rows []) 0)
    {| Postgrest.data := Some []; Postgrest.count := None;
       Postgrest.error := None |} "created_at" = (Status.unknown, None).
Proof.
  destruct (@missing_timestamp_unknown IsoEngine.engine) as (Hs & Hc & He).
  split; [| split].
  - apply (Hs (Samples.systemWorld VNull 0)).
    + right. reflexivity.
    + reflexivity.
  - rewrite (Hc {| CronJobMonitoring.keepAliveQuery := Samples.noRows;
                   CronJobMonitoring.now := Samples.t0 |}
                CronJobMonitoring.initialState _ eq_refl eq_refl I).
    reflexivity.
  - apply He. exact I.
Defined.

(** ** Determinism *)

Section Determinism.
Context `{host : Engine}.

(** The two keep-alive blocks are functions of the timestamp and the
    clock alone. *)
Lemma keepAliveOf_timestamp (w : SystemStatusSettings.World) (d : option row) :
  SystemStatusSettings.keepAliveOf w d =
    match timestampOf "Able to read DB" d with
    | Some s =>
        if String.eqb s "" then (Status.unknown, None)
        else (SystemStatusSettings.classify w s, Some s)
    | None => (Status.unknown, None)
    end.
Proof.
  unfold SystemStatusSettings.keepAliveOf, timestampOf.
  destruct d as [r |]; [| reflexivity].
  destruct (r !! "Able to read DB") as [[| s] |]; try reflexivity.
  simpl. destruct (String.eqb s ""); reflexivity.
Qed.

Lemma cron_classify_timestamp (w : CronJobMonitoring.World) (d : option row) :
  CronJobMonitoring.classify w d =
    match timestampOf "Able to read DB" d with
    | Some s =>
        if String.eqb s ""
        then {| CronJobMonitoring.lastPing := None;
                CronJobMonitoring.status := Status.unknown;
                CronJobMonitoring.hoursAgo := None |}
        else
          let hoursAgo :=
            differenceInHours (DateAt (CronJobMonitoring.now w)) (newDate s) in
          {| CronJobMonitoring.lastPing := Some s;
             CronJobMonitoring.status := CronJobMonitoring.ladder hoursAgo;
             CronJobMonitoring.hoursAgo := Some hoursAgo |}
    | None => {| CronJobMonitoring.lastPing := None;
                 CronJobMonitoring.status := Status.unknown;
                 CronJobMonitoring.hoursAgo := None |}
    end.
Proof.
  unfold CronJobMonitoring.classify, timestampOf.
  destruct d as [r |]; [| reflexivity].
  destruct (r !! "Able to read DB") as [[| s] |]; try reflexivity.
  simpl. destruct (String.eqb s ""); reflexivity.
Qed.

(** C7.  Two evaluations of the recency classifier on the same timestamp
    (or on none) at the same instant give the same label, whatever else
    differs: the other columns of the record, the answers of the other
    queries, the previous view state. *)
Theorem recency_classifier_deterministic :
  (forall (w1 w2 : SystemStatusSettings.World)
          (s1 s2 : SystemStatusSettings.SystemStats),
      timestampOf "Able to read DB" (rowOf (SystemStatusSettings.keepAliveQuery w1))
      = timestampOf "Able to read DB" (rowOf (SystemStatusSettings.keepAliveQuery w2)) ->
      SystemStatusSettings.now w1 = SystemStatusSettings.now w2 ->
      SystemStatusSettings.collect w1 = inl s1 ->
      SystemStatusSettings.collect w2 = inl s2 ->
      SystemStatusSettings.keepAliveStatus s1 = SystemStatusSettings.keepAliveStatus s2) /\
  (forall (w1 w2 : CronJobMonitoring.World) (d1 d2 : option row),
      timestampOf "Able to read DB" d1 = timestampOf "Able to read DB" d2 ->
      CronJobMonitoring.now w1 = CronJobMonitoring.now w2 ->
      CronJobMonitoring.classify w1 d1 = CronJobMonitoring.classify w2 d2) /\
  (forall (w : CronJobMonitoring.World) (st1 st2 : CronJobMonitoring.State),
      CronJobMonitoring.keepAlive (CronJobMonitoring.fetchKeepAliveStatus w st1)
      = CronJobMonitoring.keepAlive (CronJobMonitoring.fetchKeepAliveStatus w st2)).
Proof.
  split; [| split].
  - intros w1 w2 s1 s2 Hts Hnow H1 H2.
    destruct (collect_keepAlive w1 s1 H1) as [-> _].
    destruct (collect_keepAlive w2 s2 H2) as [-> _].
    assert (Hk : forall w, SystemStatusSettings.fetchKeepAlive w =
               SystemStatusSettings.keepAliveOf w
                 (rowOf (SystemStatusSettings.keepAliveQuery w))).
    { intros w. unfold SystemStatusSettings.fetchKeepAlive, rowOf.
      destruct (SystemStatusSettings.keepAliveQuery w); reflexivity. }
    rewrite !Hk, !keepAliveOf_timestamp, Hts. clear Hts.
    destruct (timestampOf _ _) as [s |]; [| reflexivity].
    destruct (String.eqb s ""); [reflexivity |].
    unfold SystemStatusSettings.classify. rewrite Hnow. reflexivity.
  - intros w1 w2 d1 d2 Hts Hnow.
    rewrite !cron_classify_timestamp, Hts, Hnow. reflexivity.
  - intros w st1 st2. reflexivity.
Qed.

End Determinism.

Lemma recency_classifier_deterministic_witness :
  SystemStatusSettings.keepAliveOf (host := IsoEngine.engine)
    (Samples.systemWorld (VStr Samples.stamp0) (Samples.hours 30))
    (Some (Samples.ping (VStr Samples.stamp0)))
  = (Status.warning, Some Samples.stamp0) /\
  CronJobMonitoring.classify (host := IsoEngine.engine)
    (Samples.cronWorld VNull (Samples.hours 30))
    (Some (Samples.ping (VStr Samples.stamp0)))
  = CronJobMonitoring.classify (host := IsoEngine.engine)
      (Samples.cronWorld (VStr "x") (Samples.hours 30))
      (Some (<["Able to read DB" := VStr Samples.stamp0]> ∅)).
Proof.
  split; [reflexivity |].
  apply (proj1 (proj2 (@recency_classifier_deterministic IsoEngine.engine))).
  - reflexivity.
  - reflexivity.
Defined.

(** ** The table statistics of SystemStatusSettings *)

Section SortFacts.
Context {A : Type} (f : A -> Z).

(** The comparator [(a, b) => f(b) - f(a)]. *)
Let descending (a b : A) : Z := f b - f a.
Let ge_f (a b : A) : Prop := f b <= f a.

Lemma insertBy_Permutation (cmp : A -> A -> Z) (x : A) (l : list A) :
  insertBy cmp x l ≡ₚ x :: l.
Proof.
  induction l as [| y l IH]; simpl; [reflexivity |].
  destruct (Z.leb (cmp x y) 0); [reflexivity |].
  rewrite IH. apply Permutation_swap.
Qed.

Lemma sort_Permutation (cmp : A -> A -> Z) (l : list A) : JS.sort cmp l ≡ₚ l.
Proof.
  induction l as [| x l IH]; simpl; [reflexivity |].
  rewrite insertBy_Permutation. constructor. exact IH.
Qed.

Lemma insertBy_descending (x : A) (l : list A) :
  StronglySorted ge_f l -> StronglySorted ge_f (insertBy descending x l).
Proof.
  induction l as [| y l IH]; intros Hs; simpl.
  - repeat constructor.
  - apply StronglySorted_inv in Hs as [Hl Hy].
    unfold descending at 1.
    destruct (Z.leb_spec (f y - f x) 0) as [Hle | Hgt].
    + constructor; [constructor; assumption |].
      constructor; [unfold ge_f; lia |].
      eapply Forall_impl; [exact Hy |]. unfold ge_f. intros z Hz. lia.
    + constructor; [apply IH; exact Hl |].
      rewrite insertBy_Permutation.
      constructor; [unfold ge_f; lia | exact Hy].
Qed.

Lemma sort_descending (l : list A) :
  StronglySorted ge_f (JS.sort descending l).
Proof.
  induction l as [| x l IH]; simpl; [constructor |].
  apply insertBy_descending, IH.
Qed.

End SortFacts.

Section TableStatistics.
Context `{host : Engine}.
Import SystemStatusSettings.

Lemma fold_sum_Permutation (l l' : list TableStats.t) :
  l ≡ₚ l' ->
  forall a : Z,
    fold_left (fun total result => total + TableStats.row_count result) l a
    = fold_left (fun total result => total + TableStats.row_count result) l' a.
Proof.
  induction 1 as [| x l l' _ IH | x y l | l l' l'' _ IH1 _ IH2]; intros a; simpl.
  - reflexivity.
  - apply IH.
  - f_equal. lia.
  - rewrite IH1. apply IH2.
Qed.

Lemma fold_sum_foldr (l : list TableStats.t) (a : Z) :
  fold_left (fun total result => total + TableStats.row_count result) l a
  = a + foldr Z.add 0 (map TableStats.row_count l).
Proof.
  revert a. induction l as [| x l IH]; intros a; simpl; [lia |].
  rewrite IH. lia.
Qed.

Lemma results_names (w : World) :
  map TableStats.table_name (results w) = map TableConfig.name TABLE_CONFIG.
Proof.
  unfold results. rewrite map_map. apply map_ext. intros config.
  unfold countPromise.
  destruct (countQuery w (TableConfig.name config)) as [m | r]; [reflexivity |].
  destruct (Postgrest.error r); reflexivity.
Qed.

Lemma TABLE_CONFIG_names_NoDup : NoDup (map TableConfig.name TABLE_CONFIG).
Proof. compute_done. Qed.

(** The table list and the total that [collect] hands to [setStats]. *)
Lemma collect_tables (w : World) (sts : SystemStats) :
  collect w = inl sts ->
  tables sts = sortByCount (results w) /\
  totalRecords sts = sumRecords (results w).
Proof.
  unfold collect. destruct (fetchLastBackup w), (fetchKeepAlive w).
  destruct (userCountQuery w); [discriminate |].
  intros [= <-]. split; reflexivity.
Qed.

(** C10.  The statistics a successful [fetchSystemStats] stores satisfy:
    [totalRecords] is the sum of [row_count] over [tables]; [tables] has
    exactly one entry per configured table, nine in all; and [tables] is
    in non-increasing order of [row_count]. *)
Theorem fetched_stats_invariants (w : World) (st : State) (sts : SystemStats) :
  collect w = inl sts ->
  stats (fetchSystemStats w st) = Some sts /\
  totalRecords sts = foldr Z.add 0 (map TableStats.row_count (tables sts)) /\
  length (tables sts) = 9%nat /\
  map TableStats.table_name (tables sts) ≡ₚ map TableConfig.name TABLE_CONFIG /\
  NoDup (map TableStats.table_name (tables sts)) /\
  StronglySorted
    (fun a b => TableStats.row_count b <= TableStats.row_count a) (tables sts).
Proof.
  intros Hc.
  assert (Hst : stats (fetchSystemStats w st) = Some sts).
  { unfold fetchSystemStats. rewrite Hc. reflexivity. }
  split; [exact Hst |]. clear Hst.
  destruct (collect_tables w sts Hc) as [-> ->].
  assert (Hp : sortByCount (results w) ≡ₚ results w) by apply sort_Permutation.
  assert (Hn : map TableStats.table_name (sortByCount (results w))
               ≡ₚ map TableConfig.name TABLE_CONFIG).
  { rewrite <- (results_names w). apply Permutation_map, Hp. }
  split; [| split; [| split; [| split]]].
  - unfold sumRecords.
    rewrite <- (fold_sum_Permutation _ _ Hp 0), fold_sum_foldr. lia.
  - rewrite Hp. unfold results. rewrite length_map. reflexivity.
  - exact Hn.
  - rewrite Hn. apply TABLE_CONFIG_names_NoDup.
  - apply (sort_descending TableStats.row_count).
Qed.

End TableStatistics.

Lemma fetched_stats_invariants_witness :
  exists sts,
    SystemStatusSettings.collect (host := IsoEngine.engine)
      (Samples.systemWorld VNull 0) = inl sts /\
    map (fun r => (SystemStatusSettings.TableStats.table_name r,
                   SystemStatusSettings.TableStats.row_count r))
        (SystemStatusSettings.tables sts)
    = [("contacts", 40); ("leads", 12); ("profiles", 3); ("accounts", 0);
       ("deals", 0); ("meetings", 0); ("tasks", 0); ("email_history", 0);
       ("notifications", 0)] /\
    SystemStatusSettings.totalRecords sts = 55 /\
    SystemStatusSettings.totalRecords sts
    = foldr Z.add 0 (map SystemStatusSettings.TableStats.row_count
                         (SystemStatusSettings.tables sts)).
Proof.
  eexists. split; [reflexivity |]. split; [reflexivity |]. split; [reflexivity |].
  apply (@fetched_stats_invariants IsoEngine.engine (Samples.systemWorld VNull 0)
           (SystemStatusSettings.initialState 0) _ eq_refl).
Defined.

(** ** Failing reads *)

(** C6, as stated, fails for [fetchFunctionStatuses]: when the keep-alive
    read rejects while the mail read succeeds with a row stamped at this very
    instant, the function list stays empty and only a toast is left; had the
    failure been replaced on its own, the list would show [send-email] as
    [active]. *)
Lemma rejected_read_discards_the_others :
  EdgeFunctionMonitor.functions
    (EdgeFunctionMonitor.fetchFunctionStatuses (host := IsoEngine.engine)
       (Samples.edgeWorld (Rejected "Failed to fetch") 0)
       (EdgeFunctionMonitor.initialState 0)) = [] /\
  EdgeFunctionMonitor.toasts
    (EdgeFunctionMonitor.fetchFunctionStatuses (host := IsoEngine.engine)
       (Samples.edgeWorld (Rejected "Failed to fetch") 0)
       (EdgeFunctionMonitor.initialState 0))
  = ["Failed to fetch edge function statuses"] /\
  statusOf "send-email"
    (EdgeFunctionMonitor.functionsList (host := IsoEngine.engine)
       (Samples.edgeWorld (Rejected "Failed to fetch") 0)
       (settled (Samples.edgeWorld (Rejected "Failed to fetch") 0)))
  = Some Status.active /\
  EdgeFunctionMonitor.functions
    (EdgeFunctionMonitor.fetchFunctionStatuses (host := IsoEngine.engine)
       (Samples.edgeWorld (Rejected "Failed to fetch") 0)
       (EdgeFunctionMonitor.initialState 0))
  <> EdgeFunctionMonitor.functionsList (host := IsoEngine.engine)
       (Samples.edgeWorld (Rejected "Failed to fetch") 0)
       (settled (Samples.edgeWorld (Rejected "Failed to fetch") 0)).
Proof. vm_compute. repeat split. discriminate. Qed.

Section FailingReads.
Context `{host : Engine}.

Lemma Promise_all_resolved (w : EdgeFunctionMonitor.World) :
  forallb resolved (reads w) = true ->
  EdgeFunctionMonitor.Promise_all w = Resolved (settled w).
Proof.
  unfold reads, settled, EdgeFunctionMonitor.Promise_all. simpl.
  destruct (EdgeFunctionMonitor.keepAliveResult w); [discriminate |].
  destruct (EdgeFunctionMonitor.emailHistoryResult w); [discriminate |].
  destruct (EdgeFunctionMonitor.bouncesResult w); [discriminate |].
  destruct (EdgeFunctionMonitor.repliesResult w); [discriminate |].
  destruct (EdgeFunctionMonitor.backupsResult w); [discriminate |].
  destruct (EdgeFunctionMonitor.securityLogsResult w); [discriminate |].
  destruct (EdgeFunctionMonitor.tasksResult w); [discriminate |].
  destruct (EdgeFunctionMonitor.meetingsResult w); [discriminate |].
  destruct (EdgeFunctionMonitor.profilesResult w); [discriminate |].
  reflexivity.
Qed.

Lemma Promise_all_rejected (w : EdgeFunctionMonitor.World) :
  forallb resolved (reads w) = false ->
  exists reason, EdgeFunctionMonitor.Promise_all w = Rejected reason.
Proof.
  unfold reads, EdgeFunctionMonitor.Promise_all. simpl.
  destruct (EdgeFunctionMonitor.keepAliveResult w),
    (EdgeFunctionMonitor.emailHistoryResult w),
    (EdgeFunctionMonitor.bouncesResult w),
    (EdgeFunctionMonitor.repliesResult w),
    (EdgeFunctionMonitor.backupsResult w),
    (EdgeFunctionMonitor.securityLogsResult w),
    (EdgeFunctionMonitor.tasksResult w),
    (EdgeFunctionMonitor.meetingsResult w),
    (EdgeFunctionMonitor.profilesResult w);
    simpl; intros Hr; try discriminate Hr; eexists; reflexivity.
Qed.

(** An answer without rows, as an error object leaves it, reads as
    [unknown] in each of the three ways a status is derived. *)
Lemma failed_answer_unknown (w : EdgeFunctionMonitor.World)
    (resp : Postgrest.response (list row)) (field : string) :
  Postgrest.data resp = None ->
  EdgeFunctionMonitor.getStatus w resp field = (Status.unknown, None) /\
  EdgeFunctionMonitor.lengthStatus resp = Status.unknown /\
  (Postgrest.count resp = None ->
   EdgeFunctionMonitor.countStatus resp = Status.unknown).
Proof.
  intros Hd.
  unfold EdgeFunctionMonitor.getStatus, EdgeFunctionMonitor.lengthStatus,
    EdgeFunctionMonitor.countStatus.
  rewrite Hd. repeat split. intros ->. reflexivity.
Qed.

(** C6, amended.  In [SystemStatusSettings] every per-table count fails on
    its own: a count that rejects or comes back with an error object
    becomes a zero row with a message on [queryErrors], the entry of a
    table is decided by the read of that table alone, and all nine entries
    are produced whatever fails.  In [fetchFunctionStatuses] the nine reads
    are settled together: when all of them come back, with or without an
    error object, the list is built from the nine answers, and an answer
    without rows reads as [unknown]; when one read rejects, the list and the
    refresh time stay as they were and a toast is left.  Either fetch
    always ends with [loading] reset. *)
Theorem reads_fail_independently :
  (forall (w : SystemStatusSettings.World),
      map SystemStatusSettings.TableStats.table_name (SystemStatusSettings.results w)
      = map SystemStatusSettings.TableConfig.name SystemStatusSettings.TABLE_CONFIG) /\
  (forall (w : SystemStatusSettings.World) (config : SystemStatusSettings.TableConfig.t)
          (msg : string),
      config ∈ SystemStatusSettings.TABLE_CONFIG ->
      (SystemStatusSettings.countQuery w (SystemStatusSettings.TableConfig.name config)
         = Rejected msg \/
       exists r e,
         SystemStatusSettings.countQuery w (SystemStatusSettings.TableConfig.name config)
           = Resolved r /\
         Postgrest.error r = Some e /\ Postgrest.message e = msg) ->
      fst (SystemStatusSettings.countPromise w config)
        = SystemStatusSettings.zeroRow config /\
      (SystemStatusSettings.TableConfig.name config ++ ": " ++ msg)%string
        ∈ SystemStatusSettings.pushedErrors w) /\
  (forall (w w' : SystemStatusSettings.World) (config : SystemStatusSettings.TableConfig.t),
      SystemStatusSettings.countQuery w (SystemStatusSettings.TableConfig.name config)
      = SystemStatusSettings.countQuery w' (SystemStatusSettings.TableConfig.name config) ->
      SystemStatusSettings.countPromise w config
      = SystemStatusSettings.countPromise w' config) /\
  (forall (w : SystemStatusSettings.World) (st : SystemStatusSettings.State),
      SystemStatusSettings.loading (SystemStatusSettings.fetchSystemStats w st) = false) /\
  (forall (w : EdgeFunctionMonitor.World) (st : EdgeFunctionMonitor.State),
      forallb resolved (reads w) = true ->
      EdgeFunctionMonitor.functions (EdgeFunctionMonitor.fetchFunctionStatuses w st)
        = EdgeFunctionMonitor.functionsList w (settled w) /\
      EdgeFunctionMonitor.toasts (EdgeFunctionMonitor.fetchFunctionStatuses w st)
        = EdgeFunctionMonitor.toasts st) /\
  (forall (w : EdgeFunctionMonitor.World) (resp : Postgrest.response (list row))
          (field : string),
      Postgrest.data resp = None ->
      EdgeFunctionMonitor.getStatus w resp field = (Status.unknown, None) /\
      EdgeFunctionMonitor.lengthStatus resp = Status.unknown) /\
  (forall (w : EdgeFunctionMonitor.World) (st : EdgeFunctionMonitor.State),
      forallb resolved (reads w) = false ->
      EdgeFunctionMonitor.functions (EdgeFunctionMonitor.fetchFunctionStatuses w st)
        = EdgeFunctionMonitor.functions st /\
      EdgeFunctionMonitor.lastRefresh (EdgeFunctionMonitor.fetchFunctionStatuses w st)
        = EdgeFunctionMonitor.lastRefresh st /\
      EdgeFunctionMonitor.toasts (EdgeFunctionMonitor.fetchFunctionStatuses w st)
        = (EdgeFunctionMonitor.toasts st
           ++ ["Failed to fetch edge function statuses"])%list) /\
  (forall (w : EdgeFunctionMonitor.World) (st : EdgeFunctionMonitor.State),
      EdgeFunctionMonitor.loading (EdgeFunctionMonitor.fetchFunctionStatuses w st) = false).
Proof.
  split; [| split; [| split; [| split; [| split; [| split; [| split]]]]]].
  - apply results_names.
  - intros w config msg Hin Hfail.
    assert (Hcp : SystemStatusSettings.countPromise w config =
              (SystemStatusSettings.zeroRow config,
               [(SystemStatusSettings.TableConfig.name config ++ ": " ++ msg)%string])).
    { unfold SystemStatusSettings.countPromise.
      destruct Hfail as [-> | (r & e & -> & -> & <-)]; reflexivity. }
    split; [rewrite Hcp; reflexivity |].
    apply list_elem_of_In, in_concat.
    exists [(SystemStatusSettings.TableConfig.name config ++ ": " ++ msg)%string].
    split; [| left; reflexivity].
    apply in_map_iff. exists config. rewrite Hcp.
    split; [reflexivity | apply list_elem_of_In, Hin].
  - intros w w' config Hq. unfold SystemStatusSettings.countPromise.
    rewrite Hq. reflexivity.
  - intros w st. unfold SystemStatusSettings.fetchSystemStats.
    destruct (SystemStatusSettings.collect w); reflexivity.
  - intros w st Hall. unfold EdgeFunctionMonitor.fetchFunctionStatuses.
    rewrite (Promise_all_resolved w Hall). split; reflexivity.
  - intros w resp field Hd.
    destruct (failed_answer_unknown w resp field Hd) as (Hg & Hl & _).
    split; assumption.
  - intros w st Hone. unfold EdgeFunctionMonitor.fetchFunctionStatuses.
    destruct (Promise_all_rejected w Hone) as [reason ->]. repeat split.
  - intros w st. unfold EdgeFunctionMonitor.fetchFunctionStatuses.
    destruct (EdgeFunctionMonitor.Promise_all w); reflexivity.
Qed.

End FailingReads.

Lemma reads_fail_independently_witness :
  ("deals: permission denied" ∈
     SystemStatusSettings.pushedErrors (Samples.systemWorld VNull 0)) /\
  ("tasks: Failed to fetch" ∈
     SystemStatusSettings.pushedErrors (Samples.systemWorld VNull 0)) /\
  statusOf "keep-alive"
    (EdgeFunctionMonitor.functions
       (EdgeFunctionMonitor.fetchFunctionStatuses (host := IsoEngine.engine)
          (Samples.edgeWorld (Samples.failing "permission denied") 0)
          (EdgeFunctionMonitor.initialState 0))) = Some Status.unknown /\
  statusOf "send-email"
    (EdgeFunctionMonitor.functions
       (EdgeFunctionMonitor.fetchFunctionStatuses (host := IsoEngine.engine)
          (Samples.edgeWorld (Samples.failing "permission denied") 0)
          (EdgeFunctionMonitor.initialState 0))) = Some Status.active /\
  EdgeFunctionMonitor.functions
    (EdgeFunctionMonitor.fetchFunctionStatuses (host := IsoEngine.engine)
       (Samples.edgeWorld (Rejected "Failed to fetch") 0)
       (EdgeFunctionMonitor.initialState 0)) = [].
Proof.
  destruct (@reads_fail_independently IsoEngine.engine)
    as (_ & Hzero & _ & _ & Hall & _ & Hone & _).
  split; [| split; [| split; [| split]]].
  - apply (Hzero (Samples.systemWorld VNull 0)
             {| SystemStatusSettings.TableConfig.name := "deals";
                SystemStatusSettings.TableConfig.icon := SystemStatusSettings.Table2;
                SystemStatusSettings.TableConfig.label := "Deals" |}
             "permission denied").
    + apply list_elem_of_In. vm_compute. tauto.
    + right. eexists _, _. repeat split; reflexivity.
  - apply (Hzero (Samples.systemWorld VNull 0)
             {| SystemStatusSettings.TableConfig.name := "tasks";
                SystemStatusSettings.TableConfig.icon := SystemStatusSettings.CheckCircle;
                SystemStatusSettings.TableConfig.label := "Tasks" |}
             "Failed to fetch").
    + apply list_elem_of_In. vm_compute. tauto.
    + left. reflexivity.
  - rewrite (proj1 (Hall (Samples.edgeWorld (Samples.failing "permission denied") 0)
                      (EdgeFunctionMonitor.initialState 0) eq_refl)).
    reflexivity.
  - rewrite (proj1 (Hall (Samples.edgeWorld (Samples.failing "permission denied") 0)
                      (EdgeFunctionMonitor.initialState 0) eq_refl)).
    reflexivity.
  - rewrite (proj1 (Hone (Samples.edgeWorld (Rejected "Failed to fetch") 0)
                      (EdgeFunctionMonitor.initialState 0) eq_refl)).
    reflexivity.
Defined.

(** ** The widget selection of DashboardCustomizeModal *)

Section Widgets.
Import DashboardCustomizeModal.

Lemma withVisible_toggle_twice (w : DashboardWidget) :
  withVisible (withVisible w (negb (visible w)))
              (negb (visible (withVisible w (negb (visible w))))) = w.
Proof. destruct w as [k l i v]. unfold withVisible. simpl. rewrite negb_involutive. reflexivity. Qed.

Lemma toggle_one (k : WidgetKey) (w : DashboardWidget) :
  (if String.eqb (key w) k then withVisible w (negb (visible w)) else w) = flipped k w.
Proof. unfold flipped, withVisible. destruct w as [k' l i v]; simpl. destruct (String.eqb k' k); reflexivity. Qed.

Lemma toggleWidget_keys (k : WidgetKey) (prev : list DashboardWidget) :
  map key (toggleWidget k prev) = map key prev.
Proof.
  unfold toggleWidget. rewrite map_map. apply map_ext. intros w.
  destruct (String.eqb (key w) k); reflexivity.
Qed.

(** C9.  [toggleWidget k] keeps the length and the order of the list,
    leaves every widget whose key is not [k] as it is, changes nothing but
    the [visible] flag of a widget whose key is [k], which it negates, and
    undoes itself when applied twice. *)
Theorem toggleWidget_local_and_involutive
    (k : WidgetKey) (prev : list DashboardWidget) :
  length (toggleWidget k prev) = length prev /\
  (forall i : nat, toggleWidget k prev !! i = flipped k <$> prev !! i) /\
  map key (toggleWidget k prev) = map key prev /\
  map label (toggleWidget k prev) = map label prev /\
  map icon (toggleWidget k prev) = map icon prev /\
  toggleWidget k (toggleWidget k prev) = prev.
Proof.
  split; [| split; [| split; [| split; [| split]]]].
  - unfold toggleWidget. apply length_map.
  - intros i. unfold toggleWidget.
    change (map ?f prev) with (f <$> prev). rewrite list_lookup_fmap.
    destruct (prev !! i) as [w |]; simpl; [| reflexivity].
    rewrite toggle_one. reflexivity.
  - apply toggleWidget_keys.
  - unfold toggleWidget. rewrite map_map. apply map_ext. intros w.
    destruct (String.eqb (key w) k); reflexivity.
  - unfold toggleWidget. rewrite map_map. apply map_ext. intros w.
    destruct (String.eqb (key w) k); reflexivity.
  - unfold toggleWidget. rewrite map_map.
    rewrite <- (map_id prev) at 2. apply map_ext. intros w.
    destruct (String.eqb (key w) k) eqn:Hk; simpl.
    + rewrite Hk. apply withVisible_toggle_twice.
    + rewrite Hk. reflexivity.
Qed.

(** Every event keeps the seven keys, in their order. *)
Lemma step_keys (widgets : list DashboardWidget) (e : event) :
  map key widgets = map key DEFAULT_WIDGETS ->
  map key (step widgets e) = map key DEFAULT_WIDGETS.
Proof.
  intros Hk. destruct e as [k | | visibleWidgets]; simpl.
  - rewrite toggleWidget_keys. exact Hk.
  - reflexivity.
  - reflexivity.
Qed.

Lemma run_keys (events : list event) (widgets : list DashboardWidget) :
  map key widgets = map key DEFAULT_WIDGETS ->
  map key (run events widgets) = map key DEFAULT_WIDGETS.
Proof.
  revert widgets. induction events as [| e events IH]; intros widgets Hk; simpl.
  - exact Hk.
  - apply IH, step_keys, Hk.
Qed.

Lemma handleSave_sublist (widgets : list DashboardWidget) :
  handleSave widgets `sublist_of` map key widgets.
Proof.
  unfold handleSave. induction widgets as [| w widgets IH]; simpl.
  - constructor.
  - destruct (visible w); simpl.
    + apply sublist_skip, IH.
    + apply sublist_cons, IH.
Qed.

Lemma DEFAULT_WIDGETS_keys_NoDup : NoDup (map key DEFAULT_WIDGETS).
Proof. compute_done. Qed.

(** C8.  Whatever [visibleWidgets] the modal is opened with, and whatever
    follows (switches toggled, and also a reset or a change of the prop),
    the list that [handleSave] passes to [onSave] is a subsequence of the
    seven keys in the order of [DEFAULT_WIDGETS], without duplicates; a key
    that is not one of the seven is never passed. *)
Theorem handleSave_canonical
    (visibleWidgets : list WidgetKey) (events : list event) :
  saveAfter visibleWidgets events `sublist_of`
    ["leads"; "contacts"; "deals"; "actionItems"; "performance";
     "quickActions"; "leadStatus"] /\
  NoDup (saveAfter visibleWidgets events) /\
  Forall (fun k => k ∈ map key DEFAULT_WIDGETS) (saveAfter visibleWidgets events).
Proof.
  assert (Hk : map key (run events (initialWidgets visibleWidgets))
               = map key DEFAULT_WIDGETS).
  { apply run_keys. reflexivity. }
  assert (Hs : saveAfter visibleWidgets events `sublist_of` map key DEFAULT_WIDGETS).
  { rewrite <- Hk. apply handleSave_sublist. }
  split; [exact Hs | split].
  - eapply sublist_NoDup; [apply DEFAULT_WIDGETS_keys_NoDup | exact Hs].
  - apply Forall_forall. intros k Hin.
    eapply elem_of_sublist; [exact Hin | exact Hs].
Qed.

(** The same for a run of toggles alone. *)
Corollary handleSave_after_toggles
    (visibleWidgets : list WidgetKey) (toggles : list WidgetKey) :
  handleSave (fold_left (fun widgets k => toggleWidget k widgets) toggles
                (initialWidgets visibleWidgets))
  = saveAfter visibleWidgets (map Toggle toggles).
Proof.
  unfold saveAfter, run. f_equal.
  generalize (initialWidgets visibleWidgets).
  induction toggles as [| k toggles IH]; intros widgets; simpl; [reflexivity |].
  apply IH.
Qed.

End Widgets.

(** * Further properties of the components *)

(** ** SystemStatusSettings: the keep-alive badge read backwards *)

Section SystemStatusBadge.
Context `{host : Engine}.
Import SystemStatusSettings.

Lemma fetchKeepAlive_rowOf (w : World) :
  fetchKeepAlive w = keepAliveOf w (rowOf (keepAliveQuery w)).
Proof. unfold fetchKeepAlive, rowOf. destruct (keepAliveQuery w); reflexivity. Qed.

(** The badge and the timestamp that [collect] stores, as a function of the
    timestamp string of the latest keep-alive row. *)
Lemma collect_badge (w : World) (sts : SystemStats) :
  collect w = inl sts ->
  (keepAliveStatus sts, lastKeepAlive sts) =
    match timestampOf "Able to read DB" (rowOf (keepAliveQuery w)) with
    | Some s =>
        if String.eqb s "" then (Status.unknown, None)
        else (classify w s, Some s)
    | None => (Status.unknown, None)
    end.
Proof.
  intros Hc. destruct (collect_keepAlive w sts Hc) as [-> ->].
  rewrite <- surjective_pairing, fetchKeepAlive_rowOf.
  apply keepAliveOf_timestamp.
Qed.

Lemma classify_cases (w : World) (s : string) :
  (newDate s = InvalidDate /\ classify w s = Status.error) \/
  (exists t, newDate s = DateAt t /\
     ((now w - t < 25 * 3600000 /\ classify w s = Status.active) \/
      (25 * 3600000 <= now w - t < 48 * 3600000 /\ classify w s = Status.warning) \/
      (48 * 3600000 <= now w - t /\ classify w s = Status.error))).
Proof.
  destruct (newDate s) as [| t] eqn:Hs.
  - left. split; [reflexivity | apply classify_invalid, Hs].
  - right. exists t. split; [reflexivity |].
    rewrite (classify_valid w s t Hs).
    destruct (Z.ltb_spec (now w - t) (25 * 3600000)); [left; split; [lia | reflexivity] |].
    destruct (Z.ltb_spec (now w - t) (48 * 3600000)); right;
      [left | right]; (split; [lia | reflexivity]).
Qed.

(** X1.  The badge that [fetchSystemStats] stores, read backwards.  [active] and
    [warning] are shown only for a timestamp that parses and whose age is in
    the band; [error] only for a non-empty timestamp that does not parse or
    is 48 hours old or more; [unknown] exactly when there is no timestamp (no
    row, no column, null, or the empty string), which is also exactly when no
    last keep-alive time is stored. *)
Theorem keepAlive_badge_read_backwards (w : World) (sts : SystemStats) :
  collect w = inl sts ->
  (keepAliveStatus sts = Status.active <->
     exists s t,
       timestampOf "Able to read DB" (rowOf (keepAliveQuery w)) = Some s /\
       newDate s = DateAt t /\ now w - t < 25 * 3600000) /\
  (keepAliveStatus sts = Status.warning <->
     exists s t,
       timestampOf "Able to read DB" (rowOf (keepAliveQuery w)) = Some s /\
       newDate s = DateAt t /\ 25 * 3600000 <= now w - t < 48 * 3600000) /\
  (keepAliveStatus sts = Status.error <->
     exists s,
       timestampOf "Able to read DB" (rowOf (keepAliveQuery w)) = Some s /\
       s <> "" /\
       (newDate s = InvalidDate \/
        exists t, newDate s = DateAt t /\ 48 * 3600000 <= now w - t)) /\
  (keepAliveStatus sts = Status.unknown <->
     timestampOf "Able to read DB" (rowOf (keepAliveQuery w)) = None \/
     timestampOf "Able to read DB" (rowOf (keepAliveQuery w)) = Some "") /\
  (lastKeepAlive sts = None <-> keepAliveStatus sts = Status.unknown).
Proof.
  intros Hc. pose proof (collect_badge w sts Hc) as Hb.
  destruct (timestampOf "Able to read DB" (rowOf (keepAliveQuery w))) as [s |].
  2: { injection Hb as -> ->.
       repeat split; try discriminate; try tauto;
         first [ intros (? & ? & [=] & _) | intros (? & [=] & _) ]. }
  destruct (String.eqb_spec s "") as [He | Hne].
  { subst s. injection Hb as -> ->.
    repeat split; try discriminate; try tauto.
    - intros (s & t & [= <-] & Hs & _). rewrite newDate_empty in Hs. discriminate.
    - intros (s & t & [= <-] & Hs & _). rewrite newDate_empty in Hs. discriminate.
    - intros (s & [= <-] & Hne & _). contradiction. }
  injection Hb as -> ->.
  destruct (classify_cases w s)
    as [[Hs ->] | (t & Hs & [[Ha ->] | [[Ha ->] | [Ha ->]]])];
    (split; [| split; [| split; [| split]]]); split;
    try discriminate; try reflexivity;
    try (intros (s' & t' & [= <-] & Hs' & Ha'); rewrite Hs in Hs';
         first [discriminate | injection Hs' as <-; lia]);
    try (intros (s' & [= <-] & _ & [Hs' | (t' & Hs' & Ha')]); rewrite Hs in Hs';
         first [discriminate | injection Hs' as <-; lia]);
    try (intros [Hn | Hn]; first [discriminate | injection Hn as ->; contradiction]).
  - intros _. exists s. repeat split; auto.
  - intros _. exists s, t. repeat split; auto.
  - intros _. exists s, t. repeat split; auto; lia.
  - intros _. exists s. repeat split; auto. right. exists t. split; auto.
Qed.

End SystemStatusBadge.

Lemma keepAlive_badge_read_backwards_witness :
  exists s t,
    timestampOf "Able to read DB"
      (rowOf (SystemStatusSettings.keepAliveQuery
                (Samples.systemWorld (VStr Samples.stamp0) (Samples.hours 30))))
    = Some s /\
    newDate (Engine := IsoEngine.engine) s = DateAt t /\
    25 * 3600000
    <= SystemStatusSettings.now
         (Samples.systemWorld (VStr Samples.stamp0) (Samples.hours 30)) - t
    < 48 * 3600000.
Proof.
  exact (proj1 (proj1 (proj2
           (@keepAlive_badge_read_backwards IsoEngine.engine
              (Samples.systemWorld (VStr Samples.stamp0) (Samples.hours 30))
              _ eq_refl))) eq_refl).
Defined.

(** ** SystemStatusSettings: failed counts, health and totals *)

Section SystemStatusHealth.
Context `{host : Engine}.
Import SystemStatusSettings.

Lemma countPromise_errors (w : World) (config : TableConfig.t) :
  length (snd (countPromise w config)) = if counted w config then 0%nat else 1%nat.
Proof.
  unfold countPromise, counted.
  destruct (countQuery w (TableConfig.name config)) as [m | r]; [reflexivity |].
  destruct (Postgrest.error r); reflexivity.
Qed.

Lemma countPromise_failed (w : World) (config : TableConfig.t) :
  counted w config = false -> fst (countPromise w config) = zeroRow config.
Proof.
  unfold countPromise, counted.
  destruct (countQuery w (TableConfig.name config)) as [m | r]; [reflexivity |].
  destruct (Postgrest.error r); [reflexivity | discriminate].
Qed.

Lemma errors_length (w : World) (configs : list TableConfig.t) :
  length (concat (map (fun config => snd (countPromise w config)) configs))
  = length (List.filter (fun config => negb (counted w config)) configs).
Proof.
  induction configs as [| config configs IH]; simpl; [reflexivity |].
  rewrite length_app, countPromise_errors, IH.
  destruct (counted w config); reflexivity.
Qed.

Lemma collect_queryErrors (w : World) (sts : SystemStats) :
  collect w = inl sts -> queryErrors sts = pushedErrors w.
Proof.
  unfold collect. destruct (fetchLastBackup w), (fetchKeepAlive w).
  destruct (userCountQuery w); [discriminate |].
  intros [= <-]. reflexivity.
Qed.

Lemma filter_nil_forallb {A : Type} (p : A -> bool) (l : list A) :
  List.filter (fun x => negb (p x)) l = [] <-> forallb p l = true.
Proof.
  induction l as [| x l IH]; simpl; [tauto |].
  destruct (p x); simpl; [exact IH |]. split; discriminate.
Qed.

Lemma queryErrors_facts (w : World) (sts : SystemStats) :
  collect w = inl sts ->
  length (queryErrors sts)
  = length (List.filter (fun config => negb (counted w config)) TABLE_CONFIG) /\
  (queryErrors sts = [] <-> forallb (counted w) TABLE_CONFIG = true) /\
  (length (queryErrors sts) <= 9)%nat.
Proof.
  intros Hc. rewrite (collect_queryErrors w sts Hc). unfold pushedErrors.
  pose proof (errors_length w TABLE_CONFIG) as Hl.
  split; [exact Hl | split].
  - rewrite <- filter_nil_forallb.
    split; intros Hn.
    + apply length_zero_iff_nil. rewrite <- Hl, Hn. reflexivity.
    + apply length_zero_iff_nil. rewrite Hl, Hn. reflexivity.
  - rewrite Hl. apply (filter_length_le _ TABLE_CONFIG).
Qed.

(** X2.  The messages stored in [queryErrors] are one per table whose count
    failed: there are as many messages as failed counts, none exactly when
    all nine counts came back without an error, and the entry of a table
    whose count failed shows zero rows. *)
Theorem queryErrors_one_per_failed_count (w : World) (sts : SystemStats) :
  collect w = inl sts ->
  length (queryErrors sts)
  = length (List.filter (fun config => negb (counted w config)) TABLE_CONFIG) /\
  (queryErrors sts = [] <-> forallb (counted w) TABLE_CONFIG = true) /\
  (length (queryErrors sts) <= 9)%nat /\
  Forall (fun config =>
            counted w config = false ->
            {| TableStats.table_name := TableConfig.name config;
               TableStats.row_count := 0;
               TableStats.icon := TableConfig.icon config |} ∈ tables sts)
         TABLE_CONFIG.
Proof.
  intros Hc. destruct (queryErrors_facts w sts Hc) as (Hl & Hn & Hle).
  split; [exact Hl | split; [exact Hn | split; [exact Hle |]]].
  apply Forall_forall. intros config Hin Hf.
  destruct (collect_tables w sts Hc) as [-> _].
  unfold sortByCount. rewrite sort_Permutation.
  unfold results. apply list_elem_of_In, in_map_iff.
  exists config. split; [apply (countPromise_failed w config Hf) | apply list_elem_of_In, Hin].
Qed.

(** The decision table of [getHealthStatus] on stored statistics. *)
Lemma getHealthStatus_table (sts : SystemStats) :
  Health.status (getHealthStatus (Some sts)) =
    if bool_decide (queryErrors sts = []) then
      if bool_decide (keepAliveStatus sts = Status.error) then "Error"
      else if bool_decide (keepAliveStatus sts = Status.warning) then "Warning"
      else if 0 <? totalRecords sts then "Healthy" else "No Data"
    else "Degraded".
Proof.
  unfold getHealthStatus.
  destruct (queryErrors sts) as [| e es]; simpl.
  - destruct (bool_decide (keepAliveStatus sts = Status.error)); [reflexivity |].
    destruct (bool_decide (keepAliveStatus sts = Status.warning)); [reflexivity |].
    destruct (0 <? totalRecords sts); [| reflexivity].
    destruct (bool_decide (keepAliveStatus sts = Status.active)); reflexivity.
  - reflexivity.
Qed.

(** X3.  The health shown after a fetch.  It is [Degraded] exactly when the
    count of some table failed, whatever the keep-alive badge says; [Error]
    and [Warning] repeat the badge only when all nine counts succeeded; and
    [Healthy] means that all nine counts succeeded, the badge is neither
    [error] nor [warning], and at least one record was counted. *)
Theorem health_after_fetch (w : World) (sts : SystemStats) :
  collect w = inl sts ->
  (Health.status (getHealthStatus (Some sts)) = "Degraded" <->
     forallb (counted w) TABLE_CONFIG = false) /\
  (Health.status (getHealthStatus (Some sts)) = "Error" <->
     forallb (counted w) TABLE_CONFIG = true /\ keepAliveStatus sts = Status.error) /\
  (Health.status (getHealthStatus (Some sts)) = "Warning" <->
     forallb (counted w) TABLE_CONFIG = true /\ keepAliveStatus sts = Status.warning) /\
  (Health.status (getHealthStatus (Some sts)) = "Healthy" <->
     forallb (counted w) TABLE_CONFIG = true /\
     keepAliveStatus sts <> Status.error /\ keepAliveStatus sts <> Status.warning /\
     0 < totalRecords sts) /\
  (Health.status (getHealthStatus (Some sts)) = "No Data" <->
     forallb (counted w) TABLE_CONFIG = true /\
     keepAliveStatus sts <> Status.error /\ keepAliveStatus sts <> Status.warning /\
     totalRecords sts <= 0) /\
  Health.status (getHealthStatus (Some sts)) <> "unknown".
Proof.
  intros Hc.
  destruct (proj1 (proj2 (queryErrors_facts w sts Hc))) as [Hnil Hall].
  rewrite getHealthStatus_table.
  destruct (forallb (counted w) TABLE_CONFIG) eqn:Ha.
  - rewrite (bool_decide_eq_true_2 _ (Hall eq_refl)).
    repeat case_bool_decide; destruct (Z.ltb_spec 0 (totalRecords sts));
      repeat split; try discriminate; try tauto; try lia; try congruence;
      intros; intuition (try discriminate; try congruence; try lia).
  - assert (Hne : queryErrors sts <> []) by (intros Hq; apply Hnil in Hq; discriminate).
    rewrite (bool_decide_eq_false_2 _ Hne).
    repeat split; try discriminate; intros; intuition discriminate.
Qed.

End SystemStatusHealth.

Lemma queryErrors_one_per_failed_count_witness :
  exists sts,
    SystemStatusSettings.collect (host := IsoEngine.engine)
      (Samples.systemWorld VNull 0) = inl sts /\
    length (SystemStatusSettings.queryErrors sts) = 2%nat /\
    SystemStatusSettings.queryErrors sts
    = ["deals: permission denied"; "tasks: Failed to fetch"].
Proof.
  eexists. split; [reflexivity |]. split; [| reflexivity].
  exact (proj1 (@queryErrors_one_per_failed_count IsoEngine.engine
                  (Samples.systemWorld VNull 0) _ eq_refl)).
Defined.

Lemma health_after_fetch_witness :
  exists sts,
    SystemStatusSettings.collect (host := IsoEngine.engine)
      (Samples.systemWorld (VStr Samples.stamp0) (Samples.hours 50)) = inl sts /\
    SystemStatusSettings.keepAliveStatus sts = Status.error /\
    SystemStatusSettings.Health.status
      (SystemStatusSettings.getHealthStatus (Some sts)) = "Degraded".
Proof.
  eexists. split; [reflexivity |]. split; [reflexivity |].
  exact (proj2 (proj1 (@health_after_fetch IsoEngine.engine
                         (Samples.systemWorld (VStr Samples.stamp0) (Samples.hours 50))
                         _ eq_refl)) eq_refl).
Defined.

(** ** SystemStatusSettings: refreshing again and again *)

Section SystemStatusRefreshes.
Context `{host : Engine}.
Import SystemStatusSettings.

Lemma succeeds_collect (w : World) :
  succeeds w = true -> exists sts, collect w = inl sts.
Proof.
  unfold succeeds, collect. destruct (fetchLastBackup w), (fetchKeepAlive w).
  destruct (userCountQuery w); [discriminate |]. intros _. eexists. reflexivity.
Qed.

Lemma fails_collect (w : World) :
  succeeds w = false -> exists msg, collect w = inr msg.
Proof.
  unfold succeeds, collect. destruct (fetchLastBackup w), (fetchKeepAlive w).
  destruct (userCountQuery w); [| discriminate]. intros _. eexists. reflexivity.
Qed.

Lemma refreshes_app (ws1 ws2 : list World) (st : State) :
  refreshes (ws1 ++ ws2) st = refreshes ws2 (refreshes ws1 st).
Proof. apply fold_left_app. Qed.

Lemma refreshes_failing (ws : list World) (st : State) :
  forallb (fun w => negb (succeeds w)) ws = true ->
  stats (refreshes ws st) = stats st /\
  lastRefresh (refreshes ws st) = lastRefresh st.
Proof.
  revert st. induction ws as [| w ws IH]; intros st Hall; simpl in *.
  - split; reflexivity.
  - apply andb_prop in Hall as [Hw Hws].
    destruct (IH (fetchSystemStats w st) Hws) as [-> ->].
    apply negb_true_iff in Hw. destruct (fails_collect w Hw) as [msg Hm].
    unfold fetchSystemStats. rewrite Hm. split; reflexivity.
Qed.

(** X4.  What is on screen after any number of refreshes is what the most recent
    successful fetch collected, stamped with its refresh time: the failed
    fetches that follow it clear neither.  Before the first success the
    statistics are those the component started with. *)
Theorem stats_of_latest_success (ws1 ws2 : list World) (w : World) (st : State) :
  forallb (fun w' => negb (succeeds w')) ws2 = true ->
  (succeeds w = true ->
   exists sts,
     collect w = inl sts /\
     stats (refreshes (ws1 ++ w :: ws2) st) = Some sts /\
     lastRefresh (refreshes (ws1 ++ w :: ws2) st) = refreshedAt w) /\
  (stats (refreshes ws2 st) = stats st /\
   lastRefresh (refreshes ws2 st) = lastRefresh st).
Proof.
  intros Hfail. split; [| apply refreshes_failing, Hfail].
  intros Hw. destruct (succeeds_collect w Hw) as [sts Hs].
  exists sts. split; [exact Hs |].
  rewrite refreshes_app. simpl.
  change (fold_left (fun st0 w0 => fetchSystemStats w0 st0) ws2
            (fetchSystemStats w (refreshes ws1 st)))
    with (refreshes ws2 (fetchSystemStats w (refreshes ws1 st))).
  destruct (refreshes_failing ws2 (fetchSystemStats w (refreshes ws1 st)) Hfail)
    as [-> ->].
  unfold fetchSystemStats. rewrite Hs. split; reflexivity.
Qed.


End SystemStatusRefreshes.

Lemma stats_of_latest_success_witness :
  exists sts,
    SystemStatusSettings.stats
      (refreshes (host := IsoEngine.engine)
         [Samples.systemWorld VNull 0;
          Samples.failedWorld 1; Samples.failedWorld 2]
         (SystemStatusSettings.initialState 0)) = Some sts /\
    SystemStatusSettings.totalRecords sts = 55.
Proof.
  destruct (proj1 (@stats_of_latest_success IsoEngine.engine
                     [] [Samples.failedWorld 1; Samples.failedWorld 2]
                     (Samples.systemWorld VNull 0)
                     (SystemStatusSettings.initialState 0) eq_refl) eq_refl)
    as (sts & Hc & Hs & _).
  exists sts. split; [exact Hs |].
  injection Hc as <-. reflexivity.
Defined.

(** ** SystemStatusSettings: totals, badges and table names *)

Section SystemStatusTotals.
Context `{host : Engine}.
Import SystemStatusSettings.

Lemma orZero_nonneg (c : option Z) :
  (forall n, c = Some n -> 0 <= n) -> 0 <= orZero c.
Proof.
  intros Hc. unfold orZero. destruct c as [n |]; [| lia].
  destruct (Z.eqb_spec n 0); [lia | apply Hc; reflexivity].
Qed.

Lemma countPromise_nonneg (w : World) (config : TableConfig.t) :
  (forall name r n, countQuery w name = Resolved r ->
                    Postgrest.count r = Some n -> 0 <= n) ->
  0 <= TableStats.row_count (fst (countPromise w config)).
Proof.
  intros Hnn. unfold countPromise.
  destruct (countQuery w (TableConfig.name config)) as [m | r] eqn:Hq; simpl; [lia |].
  destruct (Postgrest.error r); simpl; [lia |].
  apply orZero_nonneg. intros n Hn. exact (Hnn _ r n Hq Hn).
Qed.

Lemma sum_bounds (l : list Z) :
  Forall (fun x => 0 <= x) l ->
  0 <= foldr Z.add 0 l /\
  Forall (fun x => x <= foldr Z.add 0 l) l /\
  (foldr Z.add 0 l = 0 -> Forall (fun x => x = 0) l).
Proof.
  induction 1 as [| x l Hx Hl (IH0 & IHle & IHz)]; simpl.
  - repeat split; [lia | constructor | constructor].
  - split; [lia | split].
    + constructor; [lia |].
      eapply Forall_impl; [exact IHle |]. simpl. intros y Hy. lia.
    + intros Hs. constructor; [lia | apply IHz; lia].
Qed.

(** X6.  When the backend reports no negative count, no table shows a negative
    number of rows, none shows more rows than [totalRecords], the total is
    not negative, and a total of zero means that every table shows zero
    (empty, or its count failed). *)
Theorem totals_bound_the_tables (w : World) (sts : SystemStats) :
  (forall name r n, countQuery w name = Resolved r ->
                    Postgrest.count r = Some n -> 0 <= n) ->
  collect w = inl sts ->
  0 <= totalRecords sts /\
  Forall (fun t => 0 <= TableStats.row_count t <= totalRecords sts) (tables sts) /\
  (totalRecords sts = 0 -> Forall (fun t => TableStats.row_count t = 0) (tables sts)).
Proof.
  intros Hnn Hc. destruct (collect_tables w sts Hc) as [Ht Htot].
  assert (Hp : tables sts ≡ₚ results w).
  { rewrite Ht. apply sort_Permutation. }
  assert (Hsum : totalRecords sts = foldr Z.add 0 (map TableStats.row_count (results w))).
  { rewrite Htot. unfold sumRecords. rewrite fold_sum_foldr. lia. }
  assert (Hall : Forall (fun x => 0 <= x) (map TableStats.row_count (results w))).
  { apply Forall_forall. intros x Hx.
    apply list_elem_of_In, in_map_iff in Hx as (t & <- & Hin).
    unfold results in Hin. apply in_map_iff in Hin as (config & <- & _).
    apply countPromise_nonneg, Hnn. }
  destruct (sum_bounds _ Hall) as (H0 & Hle & Hz). rewrite <- Hsum in *.
  split; [exact H0 | split].
  - rewrite Hp. apply Forall_forall. intros t Hin. split.
    + rewrite Forall_forall in Hall. apply Hall, list_elem_of_In, in_map, list_elem_of_In, Hin.
    + rewrite Forall_forall in Hle. apply Hle, list_elem_of_In, in_map, list_elem_of_In, Hin.
  - intros Hzero. rewrite Hp. apply Forall_forall. intros t Hin.
    specialize (Hz Hzero). rewrite Forall_forall in Hz.
    apply Hz, list_elem_of_In, in_map, list_elem_of_In, Hin.
Qed.

(** X7.  A table with more rows never gets a weaker badge; the badge changes
    just above 0 and just above 100. *)
Theorem getRecordBadgeVariant_monotone (count count' : Z) :
  count <= count' ->
  variantRank (getRecordBadgeVariant count) <= variantRank (getRecordBadgeVariant count').
Proof.
  intros Hle. unfold getRecordBadgeVariant.
  destruct (Z.ltb_spec 100 count), (Z.ltb_spec 100 count'),
    (Z.ltb_spec 0 count), (Z.ltb_spec 0 count'); simpl; lia.
Qed.

End SystemStatusTotals.

Lemma totals_bound_the_tables_witness :
  exists sts,
    SystemStatusSettings.collect (host := IsoEngine.engine)
      (Samples.systemWorld VNull 0) = inl sts /\
    0 <= SystemStatusSettings.totalRecords sts.
Proof.
  eexists. split; [reflexivity |].
  refine (proj1 (@totals_bound_the_tables IsoEngine.engine
                   (Samples.systemWorld VNull 0) _ _ eq_refl)).
  intros name r n Hq Hn. cbn in Hq. unfold Samples.tableCounts in Hq.
  repeat match type of Hq with
         | (if ?b then _ else _) = _ => destruct b
         end;
    first [ discriminate Hq
          | injection Hq as <-; cbn in Hn; first [discriminate Hn | injection Hn as <-; discriminate] ].
Defined.

Lemma getRecordBadgeVariant_monotone_witness :
  variantRank (SystemStatusSettings.getRecordBadgeVariant 100)
  <= variantRank (SystemStatusSettings.getRecordBadgeVariant 101).
Proof. apply getRecordBadgeVariant_monotone. discriminate. Defined.

Example badge_boundaries :
  SystemStatusSettings.getRecordBadgeVariant 0 = SystemStatusSettings.outline /\
  SystemStatusSettings.getRecordBadgeVariant 1 = SystemStatusSettings.secondary /\
  SystemStatusSettings.getRecordBadgeVariant 100 = SystemStatusSettings.secondary /\
  SystemStatusSettings.getRecordBadgeVariant 101 = SystemStatusSettings.default.
Proof. repeat split. Qed.

Section TableNames.
Import SystemStatusSettings JSString.

Lemma isWord_capitalized (c : ascii) (b : bool) :
  isWord (if isWord c && b then toUpperCase c else c) = isWord c.
Proof. destruct b, c as [[] [] [] [] [] [] [] []]; reflexivity. Qed.

Lemma toUpperCase_twice (c : ascii) (b : bool) :
  (if isWord c && b then toUpperCase (if isWord c && b then toUpperCase c else c)
   else (if isWord c && b then toUpperCase c else c))
  = (if isWord c && b then toUpperCase c else c).
Proof. destruct b, c as [[] [] [] [] [] [] [] []]; reflexivity. Qed.

Lemma capitalized_not_underscore (c : ascii) (b : bool) :
  Ascii.eqb (if isWord (if Ascii.eqb c "_" then " "%char else c) && b
             then toUpperCase (if Ascii.eqb c "_" then " "%char else c)
             else (if Ascii.eqb c "_" then " "%char else c)) "_" = false.
Proof. destruct b, c as [[] [] [] [] [] [] [] []]; reflexivity. Qed.

Lemma capitalizeFrom_length (b : bool) (s : string) :
  String.length (capitalizeFrom b s) = String.length s.
Proof. revert b. induction s as [| c s IH]; intros b; simpl; [| rewrite IH]; reflexivity. Qed.

Lemma replaceUnderscores_length (s : string) :
  String.length (replaceUnderscores s) = String.length s.
Proof. induction s as [| c s IH]; simpl; [| rewrite IH]; reflexivity. Qed.

Lemma capitalizeFrom_idempotent (b : bool) (s : string) :
  capitalizeFrom b (capitalizeFrom b s) = capitalizeFrom b s.
Proof.
  revert b. induction s as [| c s IH]; intros b; simpl; [reflexivity |].
  rewrite isWord_capitalized, toUpperCase_twice, IH. reflexivity.
Qed.

Lemma includes_cons_underscore (c : ascii) (s : string) :
  includes (String c s) "_" = Ascii.eqb c "_" || includes s "_".
Proof.
  cbn [includes String.prefix].
  destruct (ascii_dec "_" c) as [<- | Hne].
  - destruct s; reflexivity.
  - destruct (Ascii.eqb_spec c "_"); [congruence | reflexivity].
Qed.

Lemma formatted_no_underscore (b : bool) (s : string) :
  includes (capitalizeFrom b (replaceUnderscores s)) "_" = false /\
  replaceUnderscores (capitalizeFrom b (replaceUnderscores s))
  = capitalizeFrom b (replaceUnderscores s).
Proof.
  revert b. induction s as [| c s IH]; intros b.
  - split; reflexivity.
  - cbn [replaceUnderscores capitalizeFrom].
    destruct (IH (isWord (if Ascii.eqb c "_" then " "%char else c))) as [IHi IHr].
    pose proof (capitalized_not_underscore c (negb b)) as Hc.
    split.
    + rewrite includes_cons_underscore, Hc, IHi. reflexivity.
    + cbn [replaceUnderscores]. rewrite Hc, IHr. reflexivity.
Qed.

(** X8.  [formatTableName] keeps the length of the name, leaves no underscore in
    it, changes nothing when applied to its own result, and turns the name of
    each of the nine configured tables into the label configured for it. *)
Theorem formatTableName_shape (name : string) :
  String.length (formatTableName name) = String.length name /\
  includes (formatTableName name) "_" = false /\
  formatTableName (formatTableName name) = formatTableName name /\
  Forall (fun config => formatTableName (TableConfig.name config) = TableConfig.label config)
         TABLE_CONFIG.
Proof.
  unfold formatTableName, capitalizeWords.
  destruct (formatted_no_underscore false name) as [Hi Hr].
  split; [| split; [| split]].
  - rewrite capitalizeFrom_length. apply replaceUnderscores_length.
  - exact Hi.
  - rewrite Hr. apply capitalizeFrom_idempotent.
  - repeat constructor.
Qed.

End TableNames.

(** ** CronJobMonitoring: the badge read backwards *)

Section CronBadge.
Context `{host : Engine}.
Import CronJobMonitoring.

(** The value of [keepAlive] after a fetch, by cases on the read, the
    timestamp and its parse. *)
Lemma cron_fetched_cases (w : World) :
  fetched w =
    if readFailed w then failed
    else
      match timestampOf "Able to read DB" (rowOf (keepAliveQuery w)) with
      | Some s =>
          if String.eqb s ""
          then {| lastPing := None; status := Status.unknown; hoursAgo := None |}
          else
            match newDate s with
            | InvalidDate =>
                {| lastPing := Some s; status := Status.active; hoursAgo := Some NaN |}
            | DateAt t =>
                {| lastPing := Some s;
                   status := if 49 * 3600000 <=? now w - t then Status.error
                             else if 26 * 3600000 <=? now w - t then Status.warning
                             else Status.active;
                   hoursAgo := Some (ofZ (Z.quot (now w - t) 3600000)) |}
            end
      | None => {| lastPing := None; status := Status.unknown; hoursAgo := None |}
      end.
Proof.
  unfold fetched, readFailed, rowOf.
  destruct (keepAliveQuery w) as [m | r]; [reflexivity |].
  destruct (Postgrest.otherThanNoRows (Postgrest.error r)); [reflexivity |].
  rewrite cron_classify_timestamp.
  destruct (timestampOf "Able to read DB" (Postgrest.data r)) as [s |]; [| reflexivity].
  destruct (String.eqb s ""); [reflexivity |].
  destruct (newDate s) as [| t]; [reflexivity |].
  cbv zeta. rewrite differenceInHours_valid, cron_ladder_hours.
  rewrite !quot_hours_gt by lia. reflexivity.
Qed.

(** X9.  The badge that [fetchKeepAliveStatus] sets, read backwards.  A failed
    read always gives [error] without a last ping.  Otherwise [unknown]
    means that there is no timestamp; [warning] that the timestamp parses and
    is at least 26 and less than 49 hours old; [error] that it parses and is
    at least 49 hours old; and [active] that it is less than 26 hours old, or
    that it is a non-empty string that does not parse.  A last ping is stored
    exactly when an hour count is. *)
Theorem cron_badge_read_backwards (w : World) :
  (status (fetched w) = Status.unknown <->
     readFailed w = false /\
     (timestampOf "Able to read DB" (rowOf (keepAliveQuery w)) = None \/
      timestampOf "Able to read DB" (rowOf (keepAliveQuery w)) = Some "")) /\
  (status (fetched w) = Status.error <->
     readFailed w = true \/
     exists s t,
       timestampOf "Able to read DB" (rowOf (keepAliveQuery w)) = Some s /\
       newDate s = DateAt t /\ 49 * 3600000 <= now w - t) /\
  (status (fetched w) = Status.warning <->
     readFailed w = false /\
     exists s t,
       timestampOf "Able to read DB" (rowOf (keepAliveQuery w)) = Some s /\
       newDate s = DateAt t /\ 26 * 3600000 <= now w - t < 49 * 3600000) /\
  (status (fetched w) = Status.active <->
     readFailed w = false /\
     exists s,
       timestampOf "Able to read DB" (rowOf (keepAliveQuery w)) = Some s /\
       s <> "" /\
       (newDate s = InvalidDate \/
        exists t, newDate s = DateAt t /\ now w - t < 26 * 3600000)) /\
  (lastPing (fetched w) = None <-> hoursAgo (fetched w) = None) /\
  (readFailed w = true -> lastPing (fetched w) = None).
Proof.
  rewrite cron_fetched_cases.
  destruct (readFailed w).
  { cbn. repeat split; try discriminate; try tauto; auto.
    all: intros (Hf & _); discriminate Hf. }
  destruct (timestampOf "Able to read DB" (rowOf (keepAliveQuery w))) as [s |].
  2: { cbn. repeat split; try discriminate; try tauto; auto.
       all: try (intros [[=] | (? & ? & [=] & _)]).
       all: first [ intros (_ & ? & ? & [=] & _) | intros (_ & ? & [=] & _) ]. }
  destruct (String.eqb_spec s "") as [He | Hne].
  { subst s. cbn. repeat split; try discriminate; try tauto; auto.
    - intros [[=] | (s & t & [= <-] & Hs & _)].
      rewrite newDate_empty in Hs. discriminate.
    - intros (_ & s & t & [= <-] & Hs & _).
      rewrite newDate_empty in Hs. discriminate.
    - intros (_ & s & [= <-] & Hne & _). contradiction. }
  destruct (newDate s) as [| t] eqn:Hs.
  { cbn.
    split; [split | split; [split | split; [split | split; [split | split;
      [split | intros Hx; discriminate Hx]]]]];
      try discriminate; try reflexivity.
    - intros (_ & [[=] | [= ->]]). contradiction.
    - intros [[=] | (s' & t' & [= <-] & Hs' & _)]. rewrite Hs in Hs'. discriminate.
    - intros (_ & s' & t' & [= <-] & Hs' & _). rewrite Hs in Hs'. discriminate.
    - intros _. split; [reflexivity |]. exists s. repeat split; auto. }
  cbn [status lastPing hoursAgo].
  destruct (Z.leb_spec (49 * 3600000) (now w - t)) as [H49 | H49];
    [| destruct (Z.leb_spec (26 * 3600000) (now w - t)) as [H26 | H26]];
    (split; [split | split; [split | split; [split | split; [split | split;
      [split | intros Hx; discriminate Hx]]]]]);
    try discriminate; try reflexivity;
    try (intros (_ & [[=] | [= ->]]); contradiction);
    try (intros [[=] | (s' & t' & [= <-] & Hs' & Ha')]; rewrite Hs in Hs';
         injection Hs' as <-; lia);
    try (intros (_ & s' & t' & [= <-] & Hs' & Ha'); rewrite Hs in Hs';
         injection Hs' as <-; lia);
    try (intros (_ & s' & [= <-] & _ & [Hs' | (t' & Hs' & Ha')]); rewrite Hs in Hs';
         first [discriminate | injection Hs' as <-; lia]).
  - intros _. right. exists s, t. repeat split; auto.
  - intros _. split; [reflexivity |]. exists s, t. repeat split; auto; lia.
  - intros _. split; [reflexivity |]. exists s. repeat split; auto.
    right. exists t. split; auto.
Qed.

End CronBadge.

(** ** EdgeFunctionMonitor: [getStatus] read backwards *)

Section EdgeBadge.
Context `{host : Engine}.
Import EdgeFunctionMonitor.

Lemma getStatus_cases (w : World) (resp : Postgrest.response (list row))
    (field : string) :
  getStatus w resp field =
    match timestampOf field (firstRow resp) with
    | Some s =>
        if String.eqb s "" then (Status.unknown, None)
        else
          match newDate s with
          | InvalidDate => (Status.unknown, Some s)
          | DateAt t =>
              (if now w - t <? 168 * 3600000 then Status.active else Status.unknown,
               Some s)
          end
    | None => (Status.unknown, None)
    end.
Proof.
  unfold getStatus, timestampOf, firstRow.
  destruct (Postgrest.data resp) as [[| first rest] |]; try reflexivity.
  destruct (first !! field) as [[| s] |]; try reflexivity.
  cbn [truthy strOf]. destruct (String.eqb s ""); [reflexivity |]. cbn [negb].
  destruct (newDate s) as [| t]; [reflexivity |].
  cbn [getTime]. rewrite hours_lt. reflexivity.
Qed.

Lemma getStatus_two_valued (w : World) (resp : Postgrest.response (list row))
    (field : string) :
  fst (getStatus w resp field) = Status.active \/
  fst (getStatus w resp field) = Status.unknown.
Proof.
  rewrite getStatus_cases.
  destruct (timestampOf field (firstRow resp)) as [s |]; [| right; reflexivity].
  destruct (String.eqb s ""); [right; reflexivity |].
  destruct (newDate s) as [| t]; [right; reflexivity |].
  destruct (now w - t <? 168 * 3600000); [left | right]; reflexivity.
Qed.

(** X10.  [getStatus] read backwards.  It answers [active] only for a first row
    whose timestamp parses and is less than 168 hours old, and [unknown] in
    every other case; it never answers anything else.  It reports a last
    activity exactly when the first row carries a non-empty timestamp string,
    and then reports that string, parseable or not. *)
Theorem getStatus_read_backwards (w : World)
    (resp : Postgrest.response (list row)) (field : string) :
  (fst (getStatus w resp field) = Status.active <->
     exists s t,
       timestampOf field (firstRow resp) = Some s /\
       newDate s = DateAt t /\ now w - t < 168 * 3600000) /\
  (fst (getStatus w resp field) = Status.active \/
   fst (getStatus w resp field) = Status.unknown) /\
  (snd (getStatus w resp field) = None <->
     timestampOf field (firstRow resp) = None \/
     timestampOf field (firstRow resp) = Some "") /\
  (forall s, snd (getStatus w resp field) = Some s <->
     timestampOf field (firstRow resp) = Some s /\ s <> "").
Proof.
  split; [| split; [apply getStatus_two_valued |]].
  - rewrite getStatus_cases.
    destruct (timestampOf field (firstRow resp)) as [s |].
    2: { split; [discriminate | intros (? & ? & [=] & _)]. }
    destruct (String.eqb_spec s "") as [He | Hne].
    { subst s. split; [discriminate |].
      intros (s & t & [= <-] & Hs & _). rewrite newDate_empty in Hs. discriminate. }
    destruct (newDate s) as [| t] eqn:Hs.
    { split; [discriminate |].
      intros (s' & t' & [= <-] & Hs' & _). rewrite Hs in Hs'. discriminate. }
    cbn [fst]. destruct (Z.ltb_spec (now w - t) (168 * 3600000)) as [Hlt | Hge]; split.
    + intros _. exists s, t. repeat split; auto.
    + reflexivity.
    + discriminate.
    + intros (s' & t' & [= <-] & Hs' & Ha). rewrite Hs in Hs'. injection Hs' as <-. lia.
  - rewrite getStatus_cases.
    destruct (timestampOf field (firstRow resp)) as [s |].
    2: { split; [split; [auto | reflexivity] |].
         intros s. split; [discriminate | intros [[=] _]]. }
    destruct (String.eqb_spec s "") as [He | Hne].
    { subst s. split; [split; [auto | reflexivity] |].
      intros s. split; [discriminate |]. intros [[= <-] Hne]. contradiction. }
    assert (Hsnd : snd (match newDate s with
                        | InvalidDate => (Status.unknown, Some s)
                        | DateAt t =>
                            (if now w - t <? 168 * 3600000
                             then Status.active else Status.unknown, Some s)
                        end) = Some s)
      by (destruct (newDate s); reflexivity).
    rewrite Hsnd. split.
    + split; [discriminate |]. intros [[=] | [= ->]]. contradiction.
    + intros s'. split.
      * intros [= <-]. split; [reflexivity | exact Hne].
      * intros [[= <-] _]. reflexivity.
Qed.

End EdgeBadge.

(** ** EdgeFunctionMonitor: the list, its counters and its tabs *)

Section EdgeList.
Context `{host : Engine}.
Import EdgeFunctionMonitor.

Lemma countStatus_two_valued (r : Postgrest.response (list row)) :
  countStatus r = Status.active \/ countStatus r = Status.unknown.
Proof.
  unfold countStatus. destruct (Postgrest.count r) as [c |]; [| right; reflexivity].
  destruct (Z.eqb c 0); [right | left]; reflexivity.
Qed.

Lemma lengthStatus_two_valued (r : Postgrest.response (list row)) :
  lengthStatus r = Status.active \/ lengthStatus r = Status.unknown.
Proof.
  unfold lengthStatus. destruct (Postgrest.data r) as [[| first rest] |];
    [right | left | right]; reflexivity.
Qed.

(** The statuses of the list, entry by entry. *)
Lemma functionsList_statuses (w : World) (rs : Results) :
  map status (functionsList w rs) =
    [ fst (getStatus w (keepAlive_ rs) "Able to read DB");
      fst (getStatus w (backups_ rs) "created_at");
      Status.unknown;
      fst (getStatus w (securityLogs_ rs) "created_at");
      countStatus (profiles_ rs);
      fst (getStatus w (emailHistory_ rs) "sent_at");
      fst (getStatus w (bounces_ rs) "bounced_at");
      fst (getStatus w (replies_ rs) "received_at");
      fst (getStatus w (emailHistory_ rs) "sent_at");
      fst (getStatus w (emailHistory_ rs) "sent_at");
      fst (getStatus w (bounces_ rs) "bounced_at");
      Status.deprecated; Status.deprecated;
      lengthStatus (tasks_ rs); lengthStatus (tasks_ rs);
      lengthStatus (meetings_ rs);
      Status.unknown; Status.unknown; Status.active; Status.active;
      countStatus (profiles_ rs) ].
Proof. reflexivity. Qed.

Lemma countStatusIs_map (s : Status.t) (fs : list EdgeFunctionStatus) :
  countStatusIs s fs
  = length (List.filter (fun x => bool_decide (x = s)) (map status fs)).
Proof.
  unfold countStatusIs. induction fs as [| f fs IH]; simpl; [reflexivity |].
  destruct (bool_decide (status f = s)); simpl; rewrite IH; reflexivity.
Qed.


(** Counting the entries with a given status, one entry at a time. *)
Lemma count_cons (s x : Status.t) (l : list Status.t) :
  length (List.filter (fun y => bool_decide (y = s)) (x :: l))
  = (indicator s x + length (List.filter (fun y => bool_decide (y = s)) l))%nat.
Proof. unfold indicator. simpl. destruct (bool_decide (x = s)); reflexivity. Qed.

Lemma indicator_two_valued (x : Status.t) :
  x = Status.active \/ x = Status.unknown ->
  (indicator Status.active x + indicator Status.unknown x = 1)%nat /\
  indicator Status.deprecated x = 0%nat /\
  indicator Status.error x = 0%nat /\
  indicator Status.warning x = 0%nat.
Proof. intros [-> | ->]; repeat split. Qed.

Lemma two_of_three (x : Status.t) :
  x = Status.active \/ x = Status.unknown ->
  x = Status.active \/ x = Status.unknown \/ x = Status.deprecated.
Proof. tauto. Qed.

(** The counters of a freshly built list. *)
Lemma functionsList_counters (w : World) (rs : Results) :
  Forall (fun s => s = Status.active \/ s = Status.unknown \/ s = Status.deprecated)
         (map status (functionsList w rs)) /\
  (countStatusIs Status.active (functionsList w rs)
   + countStatusIs Status.deprecated (functionsList w rs)
   + countStatusIs Status.unknown (functionsList w rs) = 21)%nat /\
  countStatusIs Status.deprecated (functionsList w rs) = 2%nat /\
  (2 <= countStatusIs Status.active (functionsList w rs) <= 16)%nat /\
  (3 <= countStatusIs Status.unknown (functionsList w rs) <= 17)%nat /\
  countStatusIs Status.error (functionsList w rs) = 0%nat /\
  countStatusIs Status.warning (functionsList w rs) = 0%nat.
Proof.
  rewrite !countStatusIs_map, functionsList_statuses.
  split.
  { repeat (apply Forall_cons; split;
            [ first [ apply two_of_three;
                      first [ apply getStatus_two_valued
                            | apply countStatus_two_valued
                            | apply lengthStatus_two_valued ]
                    | auto ] |]).
    constructor. }
  rewrite !count_cons. cbn [List.filter length].
  pose proof (indicator_two_valued _ (getStatus_two_valued w (keepAlive_ rs) "Able to read DB")).
  pose proof (indicator_two_valued _ (getStatus_two_valued w (backups_ rs) "created_at")).
  pose proof (indicator_two_valued _ (getStatus_two_valued w (securityLogs_ rs) "created_at")).
  pose proof (indicator_two_valued _ (countStatus_two_valued (profiles_ rs))).
  pose proof (indicator_two_valued _ (getStatus_two_valued w (emailHistory_ rs) "sent_at")).
  pose proof (indicator_two_valued _ (getStatus_two_valued w (bounces_ rs) "bounced_at")).
  pose proof (indicator_two_valued _ (getStatus_two_valued w (replies_ rs) "received_at")).
  pose proof (indicator_two_valued _ (lengthStatus_two_valued (tasks_ rs))).
  pose proof (indicator_two_valued _ (lengthStatus_two_valued (meetings_ rs))).
  change (indicator Status.active Status.active) with 1%nat.
  change (indicator Status.active Status.unknown) with 0%nat.
  change (indicator Status.active Status.deprecated) with 0%nat.
  change (indicator Status.unknown Status.active) with 0%nat.
  change (indicator Status.unknown Status.unknown) with 1%nat.
  change (indicator Status.unknown Status.deprecated) with 0%nat.
  change (indicator Status.deprecated Status.active) with 0%nat.
  change (indicator Status.deprecated Status.unknown) with 0%nat.
  change (indicator Status.deprecated Status.deprecated) with 1%nat.
  change (indicator Status.error Status.active) with 0%nat.
  change (indicator Status.error Status.unknown) with 0%nat.
  change (indicator Status.error Status.deprecated) with 0%nat.
  change (indicator Status.warning Status.active) with 0%nat.
  change (indicator Status.warning Status.unknown) with 0%nat.
  change (indicator Status.warning Status.deprecated) with 0%nat.
  lia.
Qed.

End EdgeList.

Section EdgeView.
Context `{host : Engine}.
Import EdgeFunctionMonitor.

(** X11.  Every list that [fetchFunctionStatuses] hands to [setFunctions] has 21
    entries with 21 different names, none of them [error]; so the three
    counters shown always add up to the total.  Two entries are always
    [deprecated] (the deprecation card is always shown), at least two are
    [active] and at least three [unknown], whatever the backend answers. *)
Theorem function_list_counters (w : World) (rs : Results) :
  Stats.total (stats (functionsList w rs)) = 21%nat /\
  NoDup (map name (functionsList w rs)) /\
  (Stats.active (stats (functionsList w rs))
   + Stats.deprecated (stats (functionsList w rs))
   + Stats.unknown (stats (functionsList w rs))
   = Stats.total (stats (functionsList w rs)))%nat /\
  Stats.deprecated (stats (functionsList w rs)) = 2%nat /\
  (2 <= Stats.active (stats (functionsList w rs)) <= 16)%nat /\
  (3 <= Stats.unknown (stats (functionsList w rs)) <= 17)%nat /\
  Forall (fun f => status f <> Status.error /\ status f <> Status.warning)
         (functionsList w rs).
Proof.
  destruct (functionsList_counters w rs) as (Hall & Hsum & Hdep & Hact & Hunk & _ & _).
  cbn [stats Stats.total Stats.active Stats.deprecated Stats.unknown].
  assert (Hlen : length (functionsList w rs) = 21%nat) by reflexivity.
  split; [exact Hlen | split; [| split; [| split; [| split; [| split]]]]].
  - compute_done.
  - rewrite Hlen. exact Hsum.
  - exact Hdep.
  - exact Hact.
  - exact Hunk.
  - rewrite Forall_fmap in Hall. eapply Forall_impl; [exact Hall |].
    cbn. intros f [-> | [-> | ->]]; split; discriminate.
Qed.

Lemma filter_category_length (fs : list EdgeFunctionStatus) :
  length fs =
    (length (List.filter (fun f => String.eqb (categoryId (category f)) "system") fs)
     + length (List.filter (fun f => String.eqb (categoryId (category f)) "email") fs)
     + length (List.filter (fun f => String.eqb (categoryId (category f)) "task") fs)
     + length (List.filter (fun f => String.eqb (categoryId (category f)) "meeting") fs)
     + length (List.filter (fun f => String.eqb (categoryId (category f)) "utility") fs))%nat.
Proof.
  induction fs as [| f fs IH]; [reflexivity |].
  cbn [List.filter]. destruct (category f); cbn; lia.
Qed.

(** X12.  The tabs partition the list.  The tab [all] shows the whole list, the
    five category tabs show disjoint parts whose sizes add up to it, a
    function is on the tab of its own category and on no other, and an
    identifier that is not one of the six tabs selects nothing. *)
Theorem category_tabs_partition (fs : list EdgeFunctionStatus) :
  getFunctionsByCategory fs "all" = fs /\
  length fs =
    (length (getFunctionsByCategory fs "system")
     + length (getFunctionsByCategory fs "email")
     + length (getFunctionsByCategory fs "task")
     + length (getFunctionsByCategory fs "meeting")
     + length (getFunctionsByCategory fs "utility"))%nat /\
  (forall (c : Category) (f : EdgeFunctionStatus),
      f ∈ getFunctionsByCategory fs (categoryId c) <-> f ∈ fs /\ category f = c) /\
  (forall id : string,
      id ∉ map Tab.id categories -> getFunctionsByCategory fs id = []).
Proof.
  split; [reflexivity | split; [| split]].
  - exact (filter_category_length fs).
  - intros c f.
    assert (Hg : getFunctionsByCategory fs (categoryId c)
                 = List.filter (fun f => String.eqb (categoryId (category f)) (categoryId c)) fs)
      by (destruct c; reflexivity).
    rewrite Hg, !list_elem_of_In, filter_In.
    split; intros [Hin Hc]; (split; [exact Hin |]).
    + destruct (category f), c; first [reflexivity | discriminate Hc].
    + rewrite Hc. apply String.eqb_refl.
  - intros id Hid. unfold getFunctionsByCategory.
    destruct (String.eqb_spec id "all") as [-> | _].
    { exfalso. apply Hid. compute_done. }
    induction fs as [| f fs IH]; [reflexivity |].
    cbn [List.filter]. rewrite IH.
    destruct (String.eqb_spec (categoryId (category f)) id) as [<- | _]; [| reflexivity].
    exfalso. apply Hid. destruct (category f); compute_done.
Qed.

Lemma edgeRefreshes_snoc (ws : list World) (w : World) (st : State) :
  edgeRefreshes (ws ++ [w]) st = fetchFunctionStatuses w (edgeRefreshes ws st).
Proof. unfold edgeRefreshes. rewrite fold_left_app. reflexivity. Qed.

Lemma fetch_all_resolved (w : World) (st : State) :
  forallb resolved (reads w) = true ->
  fetchFunctionStatuses w st =
    {| functions := functionsList w (settled w); loading := false;
       testing := testing st; lastRefresh := refreshedAt w; toasts := toasts st |}.
Proof.
  intros Hall. unfold fetchFunctionStatuses.
  rewrite (Promise_all_resolved w Hall). reflexivity.
Qed.

Lemma fetch_one_rejected (w : World) (st : State) :
  forallb resolved (reads w) = false ->
  fetchFunctionStatuses w st =
    {| functions := functions st; loading := false;
       testing := testing st; lastRefresh := lastRefresh st;
       toasts := toasts st ++ ["Failed to fetch edge function statuses"] |}.
Proof.
  intros Hone. unfold fetchFunctionStatuses.
  destruct (Promise_all_rejected w Hone) as [reason ->]. reflexivity.
Qed.

(** X13.  After any number of refreshes since the component was mounted: the
    list is either still empty or has its 21 entries; it is empty exactly
    when no refresh had all nine reads come back; and there is one toast per
    refresh in which a read rejected, no other. *)
Theorem edge_refreshes_invariant (ws : list World) (mountedAt : Z) :
  (functions (edgeRefreshes ws (initialState mountedAt)) = [] \/
   length (functions (edgeRefreshes ws (initialState mountedAt))) = 21%nat) /\
  (functions (edgeRefreshes ws (initialState mountedAt)) = [] <->
     forallb (fun w => negb (forallb resolved (reads w))) ws = true) /\
  length (toasts (edgeRefreshes ws (initialState mountedAt)))
  = length (List.filter (fun w => negb (forallb resolved (reads w))) ws) /\
  Forall (fun t => t = "Failed to fetch edge function statuses")
         (toasts (edgeRefreshes ws (initialState mountedAt))).
Proof.
  induction ws as [| w ws (IHf & IHe & IHt & IHa)] using rev_ind.
  - repeat split; auto; constructor.
  - rewrite edgeRefreshes_snoc, forallb_app, List.filter_app, length_app.
    cbn [forallb List.filter].
    destruct (forallb resolved (reads w)) eqn:Hw.
    + rewrite (fetch_all_resolved w _ Hw). cbn [functions toasts negb length].
      split; [right; reflexivity | split; [| split]].
      * rewrite andb_false_r. split; discriminate.
      * rewrite IHt. lia.
      * exact IHa.
    + rewrite (fetch_one_rejected w _ Hw). cbn [functions toasts negb length].
      split; [exact IHf | split; [| split]].
      * rewrite andb_true_r. exact IHe.
      * rewrite length_app, IHt. reflexivity.
      * apply Forall_app. split; [exact IHa | repeat constructor].
Qed.

End EdgeView.

(** ** DashboardCustomizeModal: opening, toggling, resetting, saving *)

Section WidgetSessions.
Import DashboardCustomizeModal.

Lemma includes_elem_of (visibleWidgets : list WidgetKey) (k : WidgetKey) :
  includes visibleWidgets k = true <-> k ∈ visibleWidgets.
Proof.
  unfold includes. rewrite existsb_exists. split.
  - intros (x & Hin & Hx). apply String.eqb_eq in Hx as ->.
    apply list_elem_of_In, Hin.
  - intros Hin. exists k. split; [apply list_elem_of_In, Hin | apply String.eqb_refl].
Qed.

Lemma handleSave_initialWidgets (visibleWidgets : list WidgetKey) :
  handleSave (initialWidgets visibleWidgets)
  = List.filter (includes visibleWidgets) canonicalKeys.
Proof.
  unfold handleSave, initialWidgets, canonicalKeys.
  induction DEFAULT_WIDGETS as [| w ws IH]; [reflexivity |].
  cbn [map List.filter visible withVisible key].
  destruct (includes visibleWidgets (key w)); cbn [map key withVisible]; rewrite IH; reflexivity.
Qed.

(** X15.  Saving right after opening passes the seven keys that occur in the
    [visibleWidgets] prop, in the order of [DEFAULT_WIDGETS]: the order of the
    prop, its duplicates and its unknown keys leave no trace. *)
Theorem save_after_open (visibleWidgets : list WidgetKey) :
  saveAfter visibleWidgets []
  = List.filter (includes visibleWidgets) canonicalKeys /\
  (forall k : WidgetKey,
      k ∈ saveAfter visibleWidgets [] <-> k ∈ canonicalKeys /\ k ∈ visibleWidgets).
Proof.
  unfold saveAfter, run. cbn [fold_left].
  rewrite handleSave_initialWidgets. split; [reflexivity |].
  intros k. rewrite list_elem_of_In, filter_In, <- list_elem_of_In.
  rewrite includes_elem_of. tauto.
Qed.

Lemma filter_sublist_id (canon l : list WidgetKey) :
  NoDup canon -> l `sublist_of` canon ->
  List.filter (includes l) canon = l.
Proof.
  intros Hnd Hsub. induction Hsub as [| x l canon Hsub IH | x l canon Hsub IH].
  - reflexivity.
  - apply NoDup_cons in Hnd as [Hx Hnd].
    cbn [List.filter]. unfold includes at 1. cbn [existsb].
    rewrite String.eqb_refl. cbn [orb]. f_equal.
    rewrite <- (IH Hnd) at 2. apply filter_ext_in. intros y Hy.
    unfold includes. cbn [existsb].
    destruct (String.eqb_spec y x) as [-> | _]; [| reflexivity].
    exfalso. apply Hx, list_elem_of_In, Hy.
  - apply NoDup_cons in Hnd as [Hx Hnd].
    cbn [List.filter].
    destruct (includes l x) eqn:Hi.
    + exfalso. apply Hx. apply includes_elem_of in Hi.
      eapply elem_of_sublist; [exact Hi | exact Hsub].
    + apply IH, Hnd.
Qed.

Lemma saveAfter_sublist (visibleWidgets : list WidgetKey) (events : list event) :
  saveAfter visibleWidgets events `sublist_of` canonicalKeys.
Proof.
  unfold saveAfter, canonicalKeys.
  rewrite <- (run_keys events (initialWidgets visibleWidgets) eq_refl).
  apply handleSave_sublist.
Qed.

(** X16.  Saving and opening round-trip: when the modal is opened again with the
    list it saved and Save is clicked at once, the same list is passed. *)
Theorem save_open_save (visibleWidgets : list WidgetKey) (events : list event) :
  saveAfter (saveAfter visibleWidgets events) [] = saveAfter visibleWidgets events.
Proof.
  unfold saveAfter at 1. unfold run. cbn [fold_left].
  rewrite handleSave_initialWidgets.
  apply filter_sublist_id.
  - apply DEFAULT_WIDGETS_keys_NoDup.
  - apply saveAfter_sublist.
Qed.

Lemma run_toggles_cons (k : WidgetKey) (toggles : list WidgetKey)
    (widgets : list DashboardWidget) :
  run (map Toggle (k :: toggles)) widgets = run (map Toggle toggles) (toggleWidget k widgets).
Proof. reflexivity. Qed.

Lemma run_toggles_parity (toggles : list WidgetKey) (widgets : list DashboardWidget) :
  run (map Toggle toggles) widgets
  = map (fun w => withVisible w (xorb (visible w) (Nat.odd (occurrences (key w) toggles))))
        widgets.
Proof.
  revert widgets. induction toggles as [| k toggles IH]; intros widgets.
  - cbn. rewrite <- (map_id widgets) at 1. apply map_ext.
    intros [k l i v]. unfold withVisible. cbn. rewrite xorb_false_r. reflexivity.
  - rewrite run_toggles_cons, IH. unfold toggleWidget. rewrite map_map.
    apply map_ext. intros [k' l i v]. unfold withVisible, occurrences.
    cbn [key label icon visible List.filter].
    destruct (String.eqb k' k); cbn [key label icon visible length]; [| reflexivity].
    rewrite Nat.odd_succ, <- Nat.negb_odd. f_equal.
    destruct v, (Nat.odd (length (List.filter (String.eqb k') toggles))); reflexivity.
Qed.

(** X17.  After a run of toggles a widget is visible exactly when it was visible
    before and its switch was toggled an even number of times, or it was
    hidden and its switch was toggled an odd number of times; nothing else
    of the widget changes. *)
Theorem toggles_by_parity (toggles : list WidgetKey) (widgets : list DashboardWidget) :
  run (map Toggle toggles) widgets
  = map (fun w => withVisible w (xorb (visible w) (Nat.odd (occurrences (key w) toggles))))
        widgets.
Proof.
  revert widgets. induction toggles as [| k toggles IH]; intros widgets.
  - cbn. rewrite <- (map_id widgets) at 1. apply map_ext.
    intros [k l i v]. unfold withVisible. cbn. rewrite xorb_false_r. reflexivity.
  - rewrite run_toggles_cons, IH. unfold toggleWidget. rewrite map_map.
    apply map_ext. intros [k' l i v]. unfold withVisible, occurrences.
    cbn [key label icon visible List.filter].
    destruct (String.eqb k' k); cbn [key label icon visible length]; [| reflexivity].
    rewrite Nat.odd_succ, <- Nat.negb_odd. f_equal.
    destruct v, (Nat.odd (length (List.filter (String.eqb k') toggles))); reflexivity.
Qed.

Lemma occurrences_Permutation (k : WidgetKey) (toggles toggles' : list WidgetKey) :
  toggles ≡ₚ toggles' -> occurrences k toggles = occurrences k toggles'.
Proof.
  intros Hp. unfold occurrences.
  induction Hp as [| x l l' _ IH | x y l | l l' l'' _ IH1 _ IH2]; cbn [List.filter].
  - reflexivity.
  - destruct (String.eqb k x); cbn [length]; rewrite IH; reflexivity.
  - destruct (String.eqb k x), (String.eqb k y); reflexivity.
  - rewrite IH1. exact IH2.
Qed.

(** X18.  The order in which switches are toggled does not matter: two runs of
    toggles that are rearrangements of one another leave the same widgets,
    and so the same saved list. *)
Theorem toggles_commute (toggles toggles' : list WidgetKey)
    (widgets : list DashboardWidget) :
  toggles ≡ₚ toggles' ->
  run (map Toggle toggles) widgets = run (map Toggle toggles') widgets /\
  handleSave (run (map Toggle toggles) widgets)
  = handleSave (run (map Toggle toggles') widgets).
Proof.
  intros Hp.
  assert (He : run (map Toggle toggles) widgets = run (map Toggle toggles') widgets).
  { rewrite !run_toggles_parity. apply map_ext. intros w.
    rewrite (occurrences_Permutation (key w) _ _ Hp). reflexivity. }
  split; [exact He | rewrite He; reflexivity].
Qed.

Lemma toggleWidget_absent (k : WidgetKey) (widgets : list DashboardWidget) :
  k ∉ map key widgets -> toggleWidget k widgets = widgets.
Proof.
  intros Hk. unfold toggleWidget. rewrite <- (map_id widgets) at 2.
  apply map_ext_in. intros w Hw.
  destruct (String.eqb_spec (key w) k) as [<- | _]; [| reflexivity].
  exfalso. apply Hk, list_elem_of_In, in_map, Hw.
Qed.

Lemma run_snoc (events : list event) (e : event) (widgets : list DashboardWidget) :
  run (events ++ [e]) widgets = step (run events widgets) e.
Proof. unfold run. rewrite fold_left_app. reflexivity. Qed.

(** X19.  Toggling a key that is not one of the seven does nothing: whatever came
    before, the saved list is the one that would have been saved without
    that toggle. *)
Theorem toggle_unknown_key_ignored
    (visibleWidgets : list WidgetKey) (events : list event) (k : WidgetKey) :
  k ∉ canonicalKeys ->
  saveAfter visibleWidgets (events ++ [Toggle k]) = saveAfter visibleWidgets events.
Proof.
  intros Hk. unfold saveAfter. rewrite run_snoc. cbn [step].
  rewrite toggleWidget_absent; [reflexivity |].
  rewrite (run_keys events (initialWidgets visibleWidgets) eq_refl). exact Hk.
Qed.

(** X20.  Reset to Default wipes the history: whatever came before, saving right
    after it passes all seven keys, and saving after one more toggle passes
    the seven keys but the toggled one. *)
Theorem reset_then_save
    (visibleWidgets : list WidgetKey) (events : list event) (k : WidgetKey) :
  saveAfter visibleWidgets (events ++ [ClickReset]) = canonicalKeys /\
  saveAfter visibleWidgets ((events ++ [ClickReset]) ++ [Toggle k])
  = List.filter (fun k' => negb (String.eqb k' k)) canonicalKeys.
Proof.
  unfold saveAfter. rewrite !run_snoc. cbn [step]. split; [reflexivity |].
  unfold handleReset, toggleWidget, handleSave, canonicalKeys.
  induction DEFAULT_WIDGETS as [| w ws IH]; [reflexivity |].
  cbn [map List.filter withVisible key visible].
  destruct (String.eqb (key w) k); cbn [List.filter map withVisible key visible negb];
    rewrite IH; reflexivity.
Qed.

End WidgetSessions.

Lemma toggles_commute_witness :
  DashboardCustomizeModal.handleSave
    (DashboardCustomizeModal.run
       (map DashboardCustomizeModal.Toggle ["deals"; "leads"; "deals"])
       (DashboardCustomizeModal.initialWidgets ["leads"; "deals"]))
  = DashboardCustomizeModal.handleSave
      (DashboardCustomizeModal.run
         (map DashboardCustomizeModal.Toggle ["leads"; "deals"; "deals"])
         (DashboardCustomizeModal.initialWidgets ["leads"; "deals"])).
Proof.
  apply (toggles_commute ["deals"; "leads"; "deals"] ["leads"; "deals"; "deals"]).
  apply Permutation_swap.
Defined.

Lemma toggle_unknown_key_ignored_witness :
  DashboardCustomizeModal.saveAfter ["deals"; "bogus"]
    ([DashboardCustomizeModal.Toggle "leads"] ++ [DashboardCustomizeModal.Toggle "bogus"])
  = DashboardCustomizeModal.saveAfter ["deals"; "bogus"]
      [DashboardCustomizeModal.Toggle "leads"].
Proof.
  apply toggle_unknown_key_ignored.
  intros Hin. apply list_elem_of_In in Hin. vm_compute in Hin.
  repeat (destruct Hin as [Hin | Hin]; [discriminate Hin |]). exact Hin.
Defined.

(** ** vite.config.ts: the chunk of a module *)

Section Chunks.
Import JSString ViteConfig.

Lemma prefix_spec (p s : string) :
  String.prefix p s = true <-> exists b, s = (p ++ b)%string.
Proof.
  revert s. induction p as [| c p IH]; intros s.
  - split; [intros _; exists s; reflexivity | intros _; destruct s; reflexivity].
  - destruct s as [| c' s]; cbn [String.prefix].
    + split; [discriminate | intros [b Hb]; discriminate Hb].
    + destruct (ascii_dec c c') as [<- | Hne].
      * rewrite IH. split; intros [b Hb]; exists b.
        -- cbn. rewrite Hb. reflexivity.
        -- cbn in Hb. injection Hb as ->. reflexivity.
      * split; [discriminate |]. intros [b Hb]. cbn in Hb.
        injection Hb as Hc _. symmetry in Hc. contradiction.
Qed.

Lemma append_assoc (a b c : string) : ((a ++ b) ++ c = a ++ (b ++ c))%string.
Proof.
  induction a as [| x a IH]; [reflexivity |].
  change (String x ((a ++ b) ++ c) = String x (a ++ (b ++ c)))%string.
  f_equal. exact IH.
Qed.

(** [includes] finds [p] in [s] exactly when [s] is [p] with something in
    front and something behind. *)
Lemma includes_spec (s p : string) :
  includes s p = true <-> exists a b, s = (a ++ p ++ b)%string.
Proof.
  induction s as [| c s IH]; cbn [includes].
  - rewrite orb_false_r, prefix_spec. split.
    + intros [b Hb]. exists EmptyString, b. exact Hb.
    + intros (a & b & Hab). destruct a as [| x a]; [| discriminate Hab].
      exists b. exact Hab.
  - rewrite orb_true_iff, prefix_spec, IH. split.
    + intros [[b Hb] | (a & b & Hab)].
      * exists EmptyString, b. exact Hb.
      * exists (String c a), b. cbn. rewrite Hab. reflexivity.
    + intros (a & b & Hab). destruct a as [| x a].
      * left. exists b. exact Hab.
      * right. cbn in Hab. injection Hab as _ ->. exists a, b. reflexivity.
Qed.

Lemma includes_extension (a id b p : string) :
  includes id p = true -> includes (a ++ id ++ b) p = true.
Proof.
  rewrite !includes_spec. intros (x & y & ->).
  exists (a ++ x)%string, (y ++ b)%string.
  rewrite !append_assoc. reflexivity.
Qed.

Lemma includes_longer_fragment (s p q : string) :
  includes s (p ++ q) = true -> includes s p = true.
Proof.
  rewrite !includes_spec. intros (a & b & ->).
  exists a, (q ++ b)%string. rewrite append_assoc. reflexivity.
Qed.

(** [manualChunks] is the first-match reading of the table. *)
Lemma manualChunks_table (id : string) :
  manualChunks id = snd <$> chunkRules !! firstRule chunkRules id.
Proof.
  unfold manualChunks, chunkRules. cbn [firstRule existsb fst].
  rewrite !orb_false_r, !orb_assoc.
  repeat match goal with
         | |- context [if ?c then _ else _] => destruct c
         end; reflexivity.
Qed.

Lemma existsb_extension (a id b : string) (fragments : list string) :
  existsb (includes id) fragments = true ->
  existsb (includes (a ++ id ++ b)) fragments = true.
Proof.
  rewrite !existsb_exists. intros (p & Hin & Hp).
  exists p. split; [exact Hin | apply includes_extension, Hp].
Qed.

Lemma firstRule_extension (rules : list (list string * string)) (a id b : string) :
  (firstRule rules (a ++ id ++ b) <= firstRule rules id)%nat.
Proof.
  induction rules as [| rule rules IH]; cbn [firstRule]; [lia |].
  destruct (existsb (includes id) (fst rule)) eqn:Hid.
  - rewrite (existsb_extension a id b _ Hid). lia.
  - destruct (existsb (includes (a ++ id ++ b)) (fst rule)); lia.
Qed.

(** X21.  The chunk of a module is decided by the first rule, in the order of the
    source, one of whose fragments occurs in the module id; and a longer id
    that contains [id] is decided by the same rule or by an earlier one,
    never by a later one and never left without a chunk when [id] has one. *)
Theorem manualChunks_first_match (a id b : string) :
  manualChunks id = snd <$> chunkRules !! firstRule chunkRules id /\
  (firstRule chunkRules (a ++ id ++ b) <= firstRule chunkRules id)%nat /\
  (manualChunks id = None <-> firstRule chunkRules id = 9%nat) /\
  (manualChunks id <> None -> manualChunks (a ++ id ++ b) <> None).
Proof.
  pose proof (firstRule_extension chunkRules a id b) as Hle.
  assert (Hbound : forall x, (firstRule chunkRules x <= 9)%nat).
  { intros x. unfold chunkRules. cbn [firstRule].
    repeat match goal with
           | |- context [if ?c then _ else _] => destruct c
           end; lia. }
  assert (Hnone : forall x, manualChunks x = None <-> firstRule chunkRules x = 9%nat).
  { intros x. rewrite manualChunks_table. pose proof (Hbound x) as Hx.
    destruct (firstRule chunkRules x) as [| [| [| [| [| [| [| [| [| [| n]]]]]]]]]];
      cbn; split; intros Hn; first [discriminate Hn | reflexivity | lia]. }
  split; [apply manualChunks_table | split; [exact Hle | split; [apply Hnone |]]].
  intros Hsome Hext. apply Hsome. apply Hnone. apply Hnone in Hext.
  pose proof (Hbound id). lia.
Qed.

(** X22.  In the router rule the test for [react-router-dom] never decides:
    every id it accepts is accepted by the test for [react-router]; and every
    fragment of the heavy Radix rule is also caught by the light rule, so
    that the order of these two rules is what separates the packages. *)
Theorem manualChunks_subsumed_tests (id : string) :
  includes id "react-router-dom" || includes id "react-router"
  = includes id "react-router" /\
  Forall (fun fragment => includes id fragment = true -> includes id "@radix-ui/" = true)
         ["@radix-ui/react-dialog"; "@radix-ui/react-dropdown-menu";
          "@radix-ui/react-popover"; "@radix-ui/react-select";
          "@radix-ui/react-tabs"; "@radix-ui/react-accordion"].
Proof.
  split.
  - destruct (includes id "react-router-dom") eqn:Hd; [| reflexivity].
    symmetry. apply (includes_longer_fragment id "react-router" "-dom"), Hd.
  - repeat constructor.
    + apply (includes_longer_fragment id "@radix-ui/" "react-dialog").
    + apply (includes_longer_fragment id "@radix-ui/" "react-dropdown-menu").
    + apply (includes_longer_fragment id "@radix-ui/" "react-popover").
    + apply (includes_longer_fragment id "@radix-ui/" "react-select").
    + apply (includes_longer_fragment id "@radix-ui/" "react-tabs").
    + apply (includes_longer_fragment id "@radix-ui/" "react-accordion").
Qed.

End Chunks.

Example chunk_samples :
  ViteConfig.manualChunks "/app/node_modules/react-router-dom/dist/index.js"
  = Some "vendor-router" /\
  ViteConfig.manualChunks "/app/node_modules/react-dom/client.js" = Some "vendor-react" /\
  ViteConfig.manualChunks "/app/node_modules/@radix-ui/react-tabs/dist/index.mjs"
  = Some "vendor-ui-heavy" /\
  ViteConfig.manualChunks "/app/node_modules/@radix-ui/react-label/dist/index.mjs"
  = Some "vendor-ui-light" /\
  ViteConfig.manualChunks "/app/src/components/d3-legend.tsx" = Some "vendor-charts" /\
  ViteConfig.manualChunks "/app/src/main.tsx" = None.
Proof. repeat split. Qed.

(** ** EdgeFunctionMonitor: which Test buttons are disabled *)

Section EdgeTestButtons.
Context `{host : Engine}.
Import EdgeFunctionMonitor.

(** The names and statuses of the list, entry by entry. *)
Lemma functionsList_names_statuses (w : World) (rs : Results) :
  map (fun f => (name f, status f)) (functionsList w rs) =
    [ ("keep-alive", fst (getStatus w (keepAlive_ rs) "Able to read DB"));
      ("create-backup", fst (getStatus w (backups_ rs) "created_at"));
      ("restore-backup", Status.unknown);
      ("security-monitor", fst (getStatus w (securityLogs_ rs) "created_at"));
      ("user-admin", countStatus (profiles_ rs));
      ("send-email", fst (getStatus w (emailHistory_ rs) "sent_at"));
      ("process-bounce-checks", fst (getStatus w (bounces_ rs) "bounced_at"));
      ("process-email-replies", fst (getStatus w (replies_ rs) "received_at"));
      ("track-email-open", fst (getStatus w (emailHistory_ rs) "sent_at"));
      ("track-email-click", fst (getStatus w (emailHistory_ rs) "sent_at"));
      ("mark-email-bounced", fst (getStatus w (bounces_ rs) "bounced_at"));
      ("sync-email-bounces", Status.deprecated);
      ("backfill-message-ids", Status.deprecated);
      ("send-task-reminders", lengthStatus (tasks_ rs));
      ("send-task-notification", lengthStatus (tasks_ rs));
      ("create-teams-meeting", lengthStatus (meetings_ rs));
      ("update-teams-meeting", Status.unknown);
      ("cancel-teams-meeting", Status.unknown);
      ("fetch-user-display-names", Status.active);
      ("get-user-names", Status.active);
      ("sync-profile-names", countStatus (profiles_ rs)) ].
Proof. reflexivity. Qed.

Lemma idle_disabled_names (fs : list EdgeFunctionStatus) :
  map name (List.filter (testDisabled None) fs)
  = map fst (List.filter (fun p => bool_decide (snd p = Status.deprecated))
               (map (fun f => (name f, status f)) fs)).
Proof.
  induction fs as [| f fs IH]; [reflexivity |].
  cbn [map List.filter testDisabled orb fst snd].
  destruct (bool_decide (status f = Status.deprecated)); cbn [map fst]; rewrite IH; reflexivity.
Qed.

Lemma two_valued_not_deprecated (x : Status.t) :
  x = Status.active \/ x = Status.unknown ->
  bool_decide (x = Status.deprecated) = false.
Proof. intros [-> | ->]; reflexivity. Qed.

Lemma filter_skip (n : string) (x : Status.t) (l : list (string * Status.t)) :
  bool_decide (x = Status.deprecated) = false ->
  List.filter (fun p => bool_decide (snd p = Status.deprecated)) ((n, x) :: l)
  = List.filter (fun p => bool_decide (snd p = Status.deprecated)) l.
Proof. intros Hx. cbn [List.filter snd]. rewrite Hx. reflexivity. Qed.

Lemma filter_keep (n : string) (l : list (string * Status.t)) :
  List.filter (fun p => bool_decide (snd p = Status.deprecated)) ((n, Status.deprecated) :: l)
  = (n, Status.deprecated)
      :: List.filter (fun p => bool_decide (snd p = Status.deprecated)) l.
Proof. reflexivity. Qed.

(** X14.  While no test is running, the Test button is disabled for the two
    deprecated functions and for no other, whatever the backend answered;
    while a test runs, the button of the function under test is disabled as
    well, and no further one. *)
Theorem test_buttons_disabled (w : World) (rs : Results) :
  map name (List.filter (testDisabled None) (functionsList w rs))
  = ["sync-email-bounces"; "backfill-message-ids"] /\
  Forall (fun f => testDisabled (Some (name f)) f = true) (functionsList w rs) /\
  (forall (running : string) (f : EdgeFunctionStatus),
      testDisabled (Some running) f = true <->
      running = name f \/ status f = Status.deprecated).
Proof.
  split; [| split].
  - pose proof (two_valued_not_deprecated _
                  (getStatus_two_valued w (keepAlive_ rs) "Able to read DB")) as H1.
    pose proof (two_valued_not_deprecated _
                  (getStatus_two_valued w (backups_ rs) "created_at")) as H2.
    pose proof (two_valued_not_deprecated _
                  (getStatus_two_valued w (securityLogs_ rs) "created_at")) as H3.
    pose proof (two_valued_not_deprecated _ (countStatus_two_valued (profiles_ rs))) as H4.
    pose proof (two_valued_not_deprecated _
                  (getStatus_two_valued w (emailHistory_ rs) "sent_at")) as H5.
    pose proof (two_valued_not_deprecated _
                  (getStatus_two_valued w (bounces_ rs) "bounced_at")) as H6.
    pose proof (two_valued_not_deprecated _
                  (getStatus_two_valued w (replies_ rs) "received_at")) as H7.
    pose proof (two_valued_not_deprecated _ (lengthStatus_two_valued (tasks_ rs))) as H8.
    pose proof (two_valued_not_deprecated _ (lengthStatus_two_valued (meetings_ rs))) as H9.
    rewrite idle_disabled_names, functionsList_names_statuses.
    repeat first [ rewrite filter_keep
                 | rewrite filter_skip by first [assumption | reflexivity] ].
    reflexivity.
  - apply Forall_forall. intros f _. unfold testDisabled.
    rewrite String.eqb_refl. reflexivity.
  - intros running f. unfold testDisabled.
    rewrite orb_true_iff, String.eqb_eq, bool_decide_eq_true. reflexivity.
Qed.

End EdgeTestButtons.
